(** * ERP-Beta: the sale lifecycle and checkout computation engine

    A shallow embedding of the sale service (completeSale, cancelSale,
    createSale, updateSale), of the point-of-sale handlers of the sales view
    (saveEditItem, the discount handlers, confirmDiscount, handleSubmitSale,
    handleCashierFinalize, handlePaymentChange) and of the money helpers
    (formatMoney, parseMoney).

    Numbers.  A TypeScript [number] is modelled as an exact rational [Q]:
    sums, products and quotients are the exact ones, comparisons are the
    order of the rationals, and a number is falsy exactly when it is zero.
    Rounding of binary floating point, NaN and the infinities are outside
    this model.

    Record store.  The hosted tables [products] and [sales] are finite maps
    from the row identity to the row.  Every call of the gateway answers
    (no transport failure); a read of an absent row answers "no row".

    Strings.  A string is the UTF-8 encoding of the JavaScript string, one
    byte per character of the model; [js_length] counts its UTF-16 code
    units, which is what [.length] answers, and [isBlank] knows the white
    space [trim()] strips in that encoding.

    View.  A handler of the sales view is a function of the component's
    state (and of the store, when it calls the service) that returns the
    next state and the toasts it raised.  The cached product and sale
    lists that [refreshData] reloads are not part of the state modelled. *)

From Stdlib Require Import QArith Qabs Qminmax Qround Lqa Ascii.
From stdpp Require Import gmap strings list fin_maps.

Local Open Scope Q_scope.

(** ** Numbers *)

Definition Qltb (x y : Q) : bool := negb (Qle_bool y x).

(** A number used as a condition: false for zero. *)
Definition truthy (x : Q) : bool := negb (Qeq_bool x 0).

(** [a || b] on numbers. *)
Definition num_or (a b : Q) : Q := if truthy a then a else b.

(** ** Data model (types.ts) *)

Inductive SaleStatus := PENDING | COMPLETED | CANCELLED | BUDGET.

Definition status_eqb (a b : SaleStatus) : bool :=
  match a, b with
  | PENDING, PENDING | COMPLETED, COMPLETED
  | CANCELLED, CANCELLED | BUDGET, BUDGET => true
  | _, _ => false
  end.

Record Product := mkProduct {
  prod_id : string;
  code : string;
  name : string;
  description : string;
  price : Q;
  stock : Q;
  category : string;
  prod_unit : string;
  active : bool
}.

Record SaleItem := mkSaleItem {
  internalId : option string;
  productId : string;
  productCode : option string;
  productName : string;
  quantity : Q;
  unitPrice : Q;
  originalPrice : Q;
  total : Q;
  item_unit : option string;
  observation : option string
}.

Record PaymentDetails := mkPayments {
  cash : Q; debit : Q; credit : Q; ticket : Q; pix : Q;
  transfer : Q; boleto : Q; cheque : Q; creditStore : Q
}.

Record Sale := mkSale {
  sale_id : string;
  sellerId : string;
  sellerName : string;
  cashierId : option string;
  cashierName : option string;
  items : list SaleItem;
  totalValue : Q;
  status : SaleStatus;
  createdAt : string;
  finishedAt : option string;
  clientName : option string;
  discount : Q;
  freight : Q;
  otherCosts : Q;
  sale_payments : option PaymentDetails;
  installments : option Q;
  sale_observation : option string;
  deliveryAddress : option string;
  purchaseOrder : option string;
  customerEmail : option string;
  cashierIdent : option string;
  salespersonId : option string;
  salespersonName : option string
}.

(** ** The record store and the service's failures *)

Record Store := mkStore {
  products : gmap string Product;
  sales : gmap string Sale
}.

(** The failures the service raises; each constructor carries what the
    message of the thrown [Error] interpolates. *)
Inductive Error :=
| SaleNotFound
| AlreadyCompleted
| ProductNotFound (itemName : string)
| InsufficientStock (prodName : string) (available : Q)
| StoreError.

(** An asynchronous service call: it reads and writes the store and either
    returns or throws; what it wrote before throwing stays written. *)
Definition Tx (A : Type) : Type := Store -> (Error + A) * Store.

Definition ret {A} (a : A) : Tx A := fun st => (inr a, st).
Definition throw {A} (e : Error) : Tx A := fun st => (inl e, st).
Definition bind {A B} (c : Tx A) (k : A -> Tx B) : Tx B :=
  fun st =>
    match c st with
    | (inl e, st') => (inl e, st')
    | (inr a, st') => k a st'
    end.

Notation "'let*' x ':=' c 'in' k" := (bind c (fun x => k))
  (at level 10, x pattern, c at level 100, k at level 200).

(** [from('products').select(..).eq('id', pid).single()] *)
Definition selectProduct (pid : string) : Tx (option Product) :=
  fun st => (inr (products st !! pid), st).

Definition set_stock (v : Q) (p : Product) : Product :=
  mkProduct (prod_id p) (code p) (name p) (description p) (price p) v
            (category p) (prod_unit p) (active p).

(** [from('products').update({ stock: v }).eq('id', pid)]: the row with
    that identity, when there is one, gets the new stock. *)
Definition updateProductStock (pid : string) (v : Q) : Tx unit :=
  fun st => (inr tt, mkStore (alter (set_stock v) pid (products st)) (sales st)).

(** [from('sales').select('*').eq('id', saleId).single()] *)
Definition selectSale (saleId : string) : Tx (option Sale) :=
  fun st => (inr (sales st !! saleId), st).

(** [from('sales').update(payload).eq('id', saleId).select().single()]:
    the payload is the function [f] on the row; no row is an error. *)
Definition updateSaleRow (saleId : string) (f : Sale -> Sale) : Tx Sale :=
  fun st =>
    match sales st !! saleId with
    | Some row => (inr (f row), mkStore (products st) (<[saleId := f row]> (sales st)))
    | None => (inl StoreError, st)
    end.

(** ** completeSale *)

(** [sale.items.reduce((acc, item) => acc + item.total, 0)] *)
Definition itemsSubTotal (l : list SaleItem) : Q :=
  fold_left (fun acc item => acc + total item) l 0.

(** The item of the map callback of step 2. *)
Definition scaleItem (factor : Q) (item : SaleItem) : SaleItem :=
  let netUnitPrice := unitPrice item * factor in
  mkSaleItem (internalId item) (productId item) (productCode item)
             (productName item) (quantity item) netUnitPrice
             (originalPrice item) (netUnitPrice * quantity item)
             (item_unit item) (observation item).

(** Step 2 of completeSale: [(finalItems, finalDiscount)]. *)
Definition distributeDiscount (sale : Sale) : list SaleItem * Q :=
  if Qltb 0 (discount sale) then
    let subTotal := itemsSubTotal (items sale) in
    if Qltb 0 subTotal then
      let factor := (subTotal - discount sale) / subTotal in
      (map (scaleItem factor) (items sale), 0)
    else (items sale, discount sale)
  else (items sale, discount sale).

(** Step 3 of completeSale: the loop that validates and decrements. *)
Fixpoint stockLoop (l : list SaleItem) : Tx unit :=
  match l with
  | [] => ret tt
  | item :: rest =>
      let* prod := selectProduct (productId item) in
      match prod with
      | None => throw (ProductNotFound (productName item))
      | Some prod =>
          if Qltb (stock prod) (quantity item)
          then throw (InsufficientStock (name prod) (stock prod))
          else
            let* _ := updateProductStock (productId item)
                                         (stock prod - quantity item) in
            stockLoop rest
      end
  end.

(** The payload of step 4 applied to the stored row. *)
Definition finalizeRow (cashier cashierNm now : string)
    (finalItems : list SaleItem) (finalDiscount : Q) (s : Sale) : Sale :=
  mkSale (sale_id s) (sellerId s) (sellerName s) (Some cashier) (Some cashierNm)
         finalItems (totalValue s) COMPLETED (createdAt s) (Some now)
         (clientName s) finalDiscount (freight s) (otherCosts s)
         (sale_payments s) (installments s) (sale_observation s)
         (deliveryAddress s) (purchaseOrder s) (customerEmail s)
         (cashierIdent s) (salespersonId s) (salespersonName s).

(** [now] is the value of [new Date().toISOString()] at step 4. *)
Definition completeSale (saleId cashier cashierNm now : string) : Tx Sale :=
  let* row := selectSale saleId in
  match row with
  | None => throw SaleNotFound
  | Some sale =>
      if status_eqb (status sale) COMPLETED then throw AlreadyCompleted
      else
        let '(finalItems, finalDiscount) := distributeDiscount sale in
        let* _ := stockLoop finalItems in
        updateSaleRow saleId
          (finalizeRow cashier cashierNm now finalItems finalDiscount)
  end.

(** ** cancelSale *)

Fixpoint restoreLoop (l : list SaleItem) : Tx unit :=
  match l with
  | [] => ret tt
  | item :: rest =>
      let* prod := selectProduct (productId item) in
      match prod with
      | Some prod =>
          let* _ := updateProductStock (productId item)
                                       (stock prod + quantity item) in
          restoreLoop rest
      | None => restoreLoop rest
      end
  end.

Definition set_status (v : SaleStatus) (s : Sale) : Sale :=
  mkSale (sale_id s) (sellerId s) (sellerName s) (cashierId s) (cashierName s)
         (items s) (totalValue s) v (createdAt s) (finishedAt s)
         (clientName s) (discount s) (freight s) (otherCosts s)
         (sale_payments s) (installments s) (sale_observation s)
         (deliveryAddress s) (purchaseOrder s) (customerEmail s)
         (cashierIdent s) (salespersonId s) (salespersonName s).

Definition cancelSale (saleId : string) : Tx Sale :=
  let* row := selectSale saleId in
  match row with
  | None => throw SaleNotFound
  | Some sale =>
      let* _ := (if status_eqb (status sale) COMPLETED
                 then restoreLoop (items sale) else ret tt) in
      updateSaleRow saleId (set_status CANCELLED)
  end.

(** ** Quantities and stock movements *)

(** The quantity a list of items asks of the product [pid]. *)
Definition quantityOf (pid : string) (l : list SaleItem) : Q :=
  fold_right (fun item acc =>
                if String.eqb (productId item) pid then quantity item + acc else acc)
             0 l.

(** Two product rows that differ at most in their stock. *)
Definition same_but_stock (p p' : Product) : Prop :=
  set_stock 0 p = set_stock 0 p'.

(** [ps'] is [ps] with the stock of every row moved by [delta]. *)
Definition stock_moved (delta : string -> Q) (ps ps' : gmap string Product) : Prop :=
  forall pid : string,
    match ps !! pid with
    | None => ps' !! pid = None
    | Some p => exists p', ps' !! pid = Some p' /\ same_but_stock p p'
                           /\ stock p' == stock p + delta pid
    end.


(** ** createSale and updateSale *)

(** A [Partial<Sale>]: every field may be absent. *)
Record SalePatch := mkPatch {
  pt_items : option (list SaleItem);
  pt_sellerId : option string;
  pt_sellerName : option string;
  pt_salespersonId : option string;
  pt_salespersonName : option string;
  pt_clientName : option string;
  pt_discount : option Q;
  pt_freight : option Q;
  pt_otherCosts : option Q;
  pt_payments : option PaymentDetails;
  pt_installments : option Q;
  pt_totalValue : option Q;
  pt_observation : option string;
  pt_deliveryAddress : option string;
  pt_customerEmail : option string;
  pt_purchaseOrder : option string;
  pt_cashierIdent : option string;
  pt_status : option SaleStatus
}.

(** [a ?? b] for a column the payload may leave out. *)
Definition orElse {A} (a b : option A) : option A :=
  match a with Some _ => a | None => b end.

(** The row [createSale] inserts, read back through [mapSale]: the server
    assigns the identity [serverId] and the creation time [now]; a column
    the payload leaves out is null, which [mapSale] reads as zero for
    discount, freight, other costs and total, and as the empty list for
    the items. *)
Definition insertedRow (serverId now : string) (p : SalePatch) : Sale :=
  mkSale serverId (default EmptyString (pt_sellerId p))
         (default EmptyString (pt_sellerName p)) None None
         (default [] (pt_items p)) (default 0 (pt_totalValue p))
         (default PENDING (pt_status p)) now None (pt_clientName p)
         (default 0 (pt_discount p)) (default 0 (pt_freight p))
         (default 0 (pt_otherCosts p)) (pt_payments p) (pt_installments p)
         (pt_observation p) (pt_deliveryAddress p) (pt_purchaseOrder p)
         (pt_customerEmail p) (pt_cashierIdent p) (pt_salespersonId p)
         (pt_salespersonName p).

(** An identity the table already holds is refused by the table. *)
Definition createSale (serverId now : string) (p : SalePatch) : Tx Sale :=
  fun st =>
    match sales st !! serverId with
    | Some _ => (inl StoreError, st)
    | None =>
        let row := insertedRow serverId now p in
        (inr row, mkStore (products st) (<[serverId := row]> (sales st)))
    end.

(** The conditional mapping of [updateSale]: a column is written when the
    payload names it; [installments] only when it is also non-zero; the
    seller columns never. *)
Definition patchRow (p : SalePatch) (s : Sale) : Sale :=
  mkSale (sale_id s) (sellerId s) (sellerName s) (cashierId s) (cashierName s)
         (default (items s) (pt_items p))
         (default (totalValue s) (pt_totalValue p))
         (default (status s) (pt_status p))
         (createdAt s) (finishedAt s)
         (orElse (pt_clientName p) (clientName s))
         (default (discount s) (pt_discount p))
         (default (freight s) (pt_freight p))
         (default (otherCosts s) (pt_otherCosts p))
         (orElse (pt_payments p) (sale_payments s))
         (match pt_installments p with
          | Some n => if truthy n then Some n else installments s
          | None => installments s
          end)
         (orElse (pt_observation p) (sale_observation s))
         (orElse (pt_deliveryAddress p) (deliveryAddress s))
         (orElse (pt_purchaseOrder p) (purchaseOrder s))
         (orElse (pt_customerEmail p) (customerEmail s))
         (orElse (pt_cashierIdent p) (cashierIdent s))
         (orElse (pt_salespersonId p) (salespersonId s))
         (orElse (pt_salespersonName p) (salespersonName s)).

Definition updateSale (saleId : string) (p : SalePatch) : Tx Sale :=
  updateSaleRow saleId (patchRow p).

(** ** The point-of-sale state of the sales view *)

Inductive UserRole := MANAGER | SALESPERSON | CASHIER.

Record User := mkUser {
  user_id : string;
  user_name : string;
  username : string;
  role : UserRole;
  user_active : bool
}.

Record Seller := mkSeller {
  seller_id : string;
  seller_name : string;
  seller_active : bool
}.

Inductive Tab := TabNew | TabPending | TabHistory.

(** [keyof PaymentDetails] *)
Inductive PaymentKey :=
| Kcash | Kdebit | Kcredit | Kticket | Kpix | Ktransfer | Kboleto | Kcheque
| KcreditStore.

Definition getPayment (k : PaymentKey) (p : PaymentDetails) : Q :=
  match k with
  | Kcash => cash p | Kdebit => debit p | Kcredit => credit p
  | Kticket => ticket p | Kpix => pix p | Ktransfer => transfer p
  | Kboleto => boleto p | Kcheque => cheque p | KcreditStore => creditStore p
  end.

(** [{ ...prev, [key]: value }] *)
Definition setPayment (k : PaymentKey) (v : Q) (p : PaymentDetails) : PaymentDetails :=
  match k with
  | Kcash => mkPayments v (debit p) (credit p) (ticket p) (pix p) (transfer p) (boleto p) (cheque p) (creditStore p)
  | Kdebit => mkPayments (cash p) v (credit p) (ticket p) (pix p) (transfer p) (boleto p) (cheque p) (creditStore p)
  | Kcredit => mkPayments (cash p) (debit p) v (ticket p) (pix p) (transfer p) (boleto p) (cheque p) (creditStore p)
  | Kticket => mkPayments (cash p) (debit p) (credit p) v (pix p) (transfer p) (boleto p) (cheque p) (creditStore p)
  | Kpix => mkPayments (cash p) (debit p) (credit p) (ticket p) v (transfer p) (boleto p) (cheque p) (creditStore p)
  | Ktransfer => mkPayments (cash p) (debit p) (credit p) (ticket p) (pix p) v (boleto p) (cheque p) (creditStore p)
  | Kboleto => mkPayments (cash p) (debit p) (credit p) (ticket p) (pix p) (transfer p) v (cheque p) (creditStore p)
  | Kcheque => mkPayments (cash p) (debit p) (credit p) (ticket p) (pix p) (transfer p) (boleto p) v (creditStore p)
  | KcreditStore => mkPayments (cash p) (debit p) (credit p) (ticket p) (pix p) (transfer p) (boleto p) (cheque p) v
  end.

(** The keys in the order the state object lists them. *)
Definition paymentKeys : list PaymentKey :=
  [Kcash; Kdebit; Kcredit; Kpix; Kboleto; KcreditStore; Kticket; Ktransfer; Kcheque].

(** [Object.values(payments)] *)
Definition paymentValues (p : PaymentDetails) : list Q :=
  map (fun k => getPayment k p) paymentKeys.

(** [(Object.values(payments) as number[]).reduce((a, b) => a + b, 0)] *)
Definition sumPayments (p : PaymentDetails) : Q :=
  fold_left Qplus (paymentValues p) 0.

Definition noPayments : PaymentDetails := mkPayments 0 0 0 0 0 0 0 0 0.

(** What a toast tells; an amount the message prints through [formatMoney]
    or [toFixed] is carried as the number. *)
Inductive Message :=
| PriceReverted
| PriceFloored
| AuthorizationRequired (percent : Q)
| EmptyCart
| NoSalesperson
| SelectPaymentMethod
| PaymentMismatch (short : bool) (amount : Q)
| InvalidSession
| ProcessingFailed
| CashierMismatch (missing : Q)
| ExceedsRemaining (room : Q)
| ServiceFailure (e : Error)
| BudgetUpdated | SaleUpdated | BudgetSaved | SaleRegistered | SaleFinalized.

Inductive Toast :=
| toast_info (m : Message)
| toast_error (m : Message)
| toast_success (m : Message).

Record Pos := mkPos {
  user : option User;
  sellers : list Seller;
  activeTab : Tab;
  editingSaleId : option string;
  isCashierConfirming : bool;
  cart : list SaleItem;
  posClient : string;
  selectedSellerId : string;
  searchCode : string;
  selectedProduct : option Product;
  posDiscount : Q;
  posFreight : Q;
  posOther : Q;
  payments : PaymentDetails;
  creditInstallments : Q;
  obs : string;
  posDeliveryAddress : string;
  email : string;
  posCashierIdent : string;
  posPurchaseOrder : string;
  editModalOpen : bool;
  editItemIndex : option nat;
  editItemData : SaleItem;
  discountModalOpen : bool;
  tempDiscountValue : Q;
  tempDiscountPercent : Q;
  discountToken : string
}.


(** [setCart(updatedCart); setEditModalOpen(false)] *)
Definition set_cart_closeEdit (c : list SaleItem) (st : Pos) : Pos :=
  mkPos (user st) (sellers st) (activeTab st) (editingSaleId st)
    (isCashierConfirming st) c (posClient st) (selectedSellerId st)
    (searchCode st) (selectedProduct st) (posDiscount st) (posFreight st)
    (posOther st) (payments st) (creditInstallments st) (obs st)
    (posDeliveryAddress st) (email st) (posCashierIdent st)
    (posPurchaseOrder st) false (editItemIndex st) (editItemData st)
    (discountModalOpen st) (tempDiscountValue st) (tempDiscountPercent st)
    (discountToken st).

(** [setTempDiscountValue(v)] and [setTempDiscountPercent(pct)] *)
Definition set_tempDiscount (v pct : Q) (st : Pos) : Pos :=
  mkPos (user st) (sellers st) (activeTab st) (editingSaleId st)
    (isCashierConfirming st) (cart st) (posClient st) (selectedSellerId st)
    (searchCode st) (selectedProduct st) (posDiscount st) (posFreight st)
    (posOther st) (payments st) (creditInstallments st) (obs st)
    (posDeliveryAddress st) (email st) (posCashierIdent st)
    (posPurchaseOrder st) (editModalOpen st) (editItemIndex st)
    (editItemData st) (discountModalOpen st) v pct (discountToken st).

(** The four setters of openDiscountModal. *)
Definition openDiscountState (v pct : Q) (st : Pos) : Pos :=
  mkPos (user st) (sellers st) (activeTab st) (editingSaleId st)
    (isCashierConfirming st) (cart st) (posClient st) (selectedSellerId st)
    (searchCode st) (selectedProduct st) (posDiscount st) (posFreight st)
    (posOther st) (payments st) (creditInstallments st) (obs st)
    (posDeliveryAddress st) (email st) (posCashierIdent st)
    (posPurchaseOrder st) (editModalOpen st) (editItemIndex st)
    (editItemData st) true v pct EmptyString.

(** [setPosDiscount(v); setDiscountModalOpen(false)] *)
Definition applyDiscount (v : Q) (st : Pos) : Pos :=
  mkPos (user st) (sellers st) (activeTab st) (editingSaleId st)
    (isCashierConfirming st) (cart st) (posClient st) (selectedSellerId st)
    (searchCode st) (selectedProduct st) v (posFreight st) (posOther st)
    (payments st) (creditInstallments st) (obs st)
    (posDeliveryAddress st) (email st) (posCashierIdent st)
    (posPurchaseOrder st) (editModalOpen st) (editItemIndex st)
    (editItemData st) false (tempDiscountValue st) (tempDiscountPercent st)
    (discountToken st).


(** [setPayments(p)] *)
Definition set_payments (p : PaymentDetails) (st : Pos) : Pos :=
  mkPos (user st) (sellers st) (activeTab st) (editingSaleId st)
    (isCashierConfirming st) (cart st) (posClient st) (selectedSellerId st)
    (searchCode st) (selectedProduct st) (posDiscount st) (posFreight st)
    (posOther st) p (creditInstallments st) (obs st) (posDeliveryAddress st)
    (email st) (posCashierIdent st) (posPurchaseOrder st) (editModalOpen st)
    (editItemIndex st) (editItemData st) (discountModalOpen st)
    (tempDiscountValue st) (tempDiscountPercent st) (discountToken st).

(** [setActiveTab(t)] *)
Definition set_activeTab (t : Tab) (st : Pos) : Pos :=
  mkPos (user st) (sellers st) t (editingSaleId st) (isCashierConfirming st)
    (cart st) (posClient st) (selectedSellerId st) (searchCode st)
    (selectedProduct st) (posDiscount st) (posFreight st) (posOther st)
    (payments st) (creditInstallments st) (obs st) (posDeliveryAddress st)
    (email st) (posCashierIdent st) (posPurchaseOrder st) (editModalOpen st)
    (editItemIndex st) (editItemData st) (discountModalOpen st)
    (tempDiscountValue st) (tempDiscountPercent st) (discountToken st).

Definition resetSalesState (st : Pos) : Pos :=
  mkPos (user st) (sellers st) (activeTab st) None false [] EmptyString
    EmptyString EmptyString None 0 0 0 noPayments 1 EmptyString EmptyString
    EmptyString EmptyString EmptyString (editModalOpen st) (editItemIndex st)
    (editItemData st) (discountModalOpen st) (tempDiscountValue st)
    (tempDiscountPercent st) (discountToken st).

(** The derived values of the component body. *)
Definition subTotal (st : Pos) : Q :=
  fold_left (fun acc item => acc + total item) (cart st) 0.

Definition totalGeneral (st : Pos) : Q :=
  Qmax 0 (subTotal st - posDiscount st + posFreight st + posOther st).

Definition totalPaid (st : Pos) : Q := sumPayments (payments st).

Definition remaining (st : Pos) : Q := Qmax 0 (totalGeneral st - totalPaid st).

(** ** saveEditItem *)

(** [{ ...updatedCart[i], ...editItemData, unitPrice, total }]: a field the
    edited copy does not carry keeps the value of the cart's item. *)
Definition mergeItem (old edit : SaleItem) (finalPrice tot : Q) : SaleItem :=
  mkSaleItem (orElse (internalId edit) (internalId old)) (productId edit)
             (orElse (productCode edit) (productCode old)) (productName edit)
             (quantity edit) finalPrice (originalPrice edit) tot
             (orElse (item_unit edit) (item_unit old))
             (orElse (observation edit) (observation old)).

(** The price the edit settles on, with the notices it raises. *)
Definition editedPrice (edit : SaleItem) : Q * list Toast :=
  let original := num_or (num_or (originalPrice edit) (unitPrice edit)) 0 in
  let '(price1, n1) :=
    if negb (truthy (unitPrice edit))
    then (original, [toast_info PriceReverted])
    else (unitPrice edit, []) in
  let minAllowedPrice := original * (94 # 100) in
  if Qltb price1 minAllowedPrice
  then (minAllowedPrice, n1 ++ [toast_info PriceFloored])
  else (price1, n1).

(** [updatedCart[i] = x] on the copy of the cart.  At an index of the list
    the row is replaced; at the index just past the end the array grows by
    the row.  Further out JavaScript leaves holes in front of the row; a
    list has no holes, and the model then puts the row at the end: the rows
    that [reduce], [map] and [filter] visit are the same, their indices are
    not. *)
Definition storeRow (i : nat) (x : SaleItem) (l : list SaleItem) : list SaleItem :=
  if (i <? length l)%nat then <[i := x]> l else l ++ [x].

(** The index is the one [openEditModal] stored; it outlives the row when
    the cart is emptied with the window open, and the row is then written
    without an old row under it. *)
Definition saveEditItem (st : Pos) : Pos * list Toast :=
  match editItemIndex st with
  | Some i =>
      let edit := editItemData st in
      if truthy (quantity edit) then
        let '(finalPrice, notices) := editedPrice edit in
        let tot := num_or (quantity edit) 0 * num_or finalPrice 0 in
        let newItem :=
          match cart st !! i with
          | Some old => mergeItem old edit finalPrice tot
          | None =>
              mkSaleItem (internalId edit) (productId edit) (productCode edit)
                         (productName edit) (quantity edit) finalPrice
                         (originalPrice edit) tot (item_unit edit)
                         (observation edit)
          end in
        (set_cart_closeEdit (storeRow i newItem (cart st)) st, notices)
      else (st, [])
  | None => (st, [])
  end.

(** ** The discount window *)

(** [cart.reduce((acc, item) => acc + item.quantity * (item.originalPrice || item.unitPrice), 0)] *)
Definition totalOriginalValue (st : Pos) : Q :=
  fold_left (fun acc item =>
               acc + quantity item * num_or (originalPrice item) (unitPrice item))
            (cart st) 0.

Definition discountFromItems (st : Pos) : Q := totalOriginalValue st - subTotal st.

(** [totalOriginalValue > 0 ? (totalDiscount / totalOriginalValue) * 100 : 0]
    with [totalDiscount = discountFromItems + v]. *)
Definition effectivePercent (st : Pos) (v : Q) : Q :=
  if Qltb 0 (totalOriginalValue st)
  then ((discountFromItems st + v) / totalOriginalValue st) * 100
  else 0.

Definition openDiscountModal (st : Pos) : Pos :=
  if isCashierConfirming st then st
  else openDiscountState (posDiscount st) (effectivePercent st (posDiscount st)) st.

Definition handleDiscountValueChange (val : Q) (st : Pos) : Pos :=
  set_tempDiscount val (effectivePercent st val) st.

Definition handleDiscountPercentChange (pct : Q) (st : Pos) : Pos :=
  let targetTotalDiscount := (totalOriginalValue st * pct) / 100 in
  let neededGlobalDiscount := Qmax 0 (targetTotalDiscount - discountFromItems st) in
  set_tempDiscount neededGlobalDiscount pct st.

Definition handleDiscountTotalChange (totalComDesconto : Q) (st : Pos) : Pos :=
  let newGlobalDiscount := Qmax 0 (subTotal st - totalComDesconto) in
  set_tempDiscount newGlobalDiscount (effectivePercent st newGlobalDiscount) st.

(** The UTF-16 code units a byte of the encoding stands for: none for a
    continuation byte, two for the first byte of a four-byte sequence, one
    for any other byte. *)
Definition unitsOfByte (c : ascii) : nat :=
  let n := N_of_ascii c in
  if (n <? 128)%N then 1%nat
  else if (n <? 192)%N then 0%nat
  else if (n <? 240)%N then 1%nat
  else 2%nat.

(** [s.length] *)
Fixpoint js_length (s : string) : nat :=
  match s with
  | EmptyString => 0%nat
  | String c r => (unitsOfByte c + js_length r)%nat
  end.

Definition confirmDiscount (st : Pos) : Pos * list Toast :=
  let finalPercent := effectivePercent st (tempDiscountValue st) in
  if Qltb 6 finalPercent && (js_length (discountToken st) <? 3)%nat
  then (st, [toast_error (AuthorizationRequired finalPercent)])
  else (applyDiscount (tempDiscountValue st) st, []).

(** The total discount percentage in the words of the specification:
    [100 * (discountFromItemEdits + globalDiscount) / originalValue], taken
    as 0 when [originalValue == 0]. *)
Definition spec_totalDiscountPct (originalValue fromItemEdits globalDiscount : Q) : Q :=
  if Qeq_bool originalValue 0 then 0
  else 100 * (fromItemEdits + globalDiscount) / originalValue.

(** The original value in the words of the specification:
    [sum of quantity * originalPrice] over the items. *)
Definition spec_originalValue (c : list SaleItem) : Q :=
  fold_right (fun item acc => quantity item * originalPrice item + acc) 0 c.

(** The sum of the line totals. *)
Definition cartSubtotal (c : list SaleItem) : Q :=
  fold_right (fun item acc => total item + acc) 0 c.

(** The total discount percentage of a cart in the words of the
    specification, for a global discount [g]. *)
Definition spec_cartDiscountPct (c : list SaleItem) (g : Q) : Q :=
  spec_totalDiscountPct (spec_originalValue c)
                        (spec_originalValue c - cartSubtotal c) g.

(** The price a markdown is measured against: the original price, and the
    unit price for an item whose original price is zero. *)
Definition baselinePrice (item : SaleItem) : Q :=
  if Qeq_bool (originalPrice item) 0 then unitPrice item else originalPrice item.

(** The original value measured against the baseline prices. *)
Definition baselineValue (c : list SaleItem) : Q :=
  fold_right (fun item acc => quantity item * baselinePrice item + acc) 0 c.

(** The total discount percentage of a cart under a global discount [g]:
    [100 * (discountFromItemEdits + g) / originalValue] with the baseline
    value as original value and the baseline value less the subtotal as
    discount from item edits; 0 when the original value is not positive. *)
Definition baselineDiscountPct (c : list SaleItem) (g : Q) : Q :=
  if Qle_bool (baselineValue c) 0 then 0
  else 100 * ((baselineValue c - cartSubtotal c) + g) / baselineValue c.

(** ** Payments *)

Definition handlePaymentChange (key : PaymentKey) (value : Q) (st : Pos)
  : Pos * list Toast :=
  let currentFieldValue := getPayment key (payments st) in
  let totalPaidByOthers := sumPayments (payments st) - currentFieldValue in
  let roomLeft := totalGeneral st - totalPaidByOthers in
  if Qltb (roomLeft + (1 # 1000)) value
  then (st, [toast_error (ExceedsRemaining roomLeft)])
  else (set_payments (setPayment key value (payments st)) st, []).

Definition key_eqb (a b : PaymentKey) : bool :=
  match a, b with
  | Kcash, Kcash | Kdebit, Kdebit | Kcredit, Kcredit | Kticket, Kticket
  | Kpix, Kpix | Ktransfer, Ktransfer | Kboleto, Kboleto | Kcheque, Kcheque
  | KcreditStore, KcreditStore => true
  | _, _ => false
  end.

(** The sum of the amounts of all methods other than [key]. *)
Definition othersPaid (key : PaymentKey) (p : PaymentDetails) : Q :=
  fold_left Qplus
            (map (fun k => getPayment k p)
                 (List.filter (fun k => negb (key_eqb k key)) paymentKeys))
            0.

(** The Enter key on a payment field. *)
Definition handlePaymentKeyDown (key : PaymentKey) (st : Pos) : Pos * list Toast :=
  handlePaymentChange key (getPayment key (payments st) + remaining st) st.

(** ** Submitting and finalizing *)

(** A string used as a condition: false when empty. *)
Definition nonEmpty (s : string) : bool := negb (String.eqb s EmptyString).

Definition is_space (c : ascii) : bool :=
  match c with
  | " "%char | "009"%char | "010"%char | "011"%char | "012"%char | "013"%char => true
  | _ => false
  end.

Definition byte_is (c : ascii) (n : N) : bool := (N_of_ascii c =? n)%N.

(** The white space outside ASCII by its three bytes: U+1680, U+2000 to
    U+200A, U+2028, U+2029, U+202F, U+205F, U+3000 and U+FEFF. *)
Definition is_space3 (c1 c2 c3 : ascii) : bool :=
  let n3 := N_of_ascii c3 in
  (byte_is c1 225 && byte_is c2 154 && byte_is c3 128)
  || (byte_is c1 226 && byte_is c2 128
      && (((128 <=? n3) && (n3 <=? 138))%N
          || byte_is c3 168 || byte_is c3 169 || byte_is c3 175))
  || (byte_is c1 226 && byte_is c2 129 && byte_is c3 159)
  || (byte_is c1 227 && byte_is c2 128 && byte_is c3 128)
  || (byte_is c1 239 && byte_is c2 187 && byte_is c3 191).

(** [s.trim() === '']: the string holds nothing but white space (the six
    ASCII blanks, U+00A0 as two bytes, the others as three). *)
Fixpoint isBlank (s : string) : bool :=
  match s with
  | EmptyString => true
  | String c1 r1 =>
      if is_space c1 then isBlank r1
      else
        match r1 with
        | EmptyString => false
        | String c2 r2 =>
            if byte_is c1 194 && byte_is c2 160 then isBlank r2
            else
              match r2 with
              | EmptyString => false
              | String c3 r3 => is_space3 c1 c2 c3 && isBlank r3
              end
        end
  end.

(** The session holds a user with an identity. *)
Definition sessionUser (st : Pos) : option User :=
  match user st with
  | Some u => if nonEmpty (user_id u) then Some u else None
  | None => None
  end.

(** The sale [editingSaleId] names, when it names one. *)
Definition editingId (st : Pos) : option string :=
  match editingSaleId st with
  | Some i => if nonEmpty i then Some i else None
  | None => None
  end.

Definition salePayload (asBudget : bool) (u : User) (st : Pos) : SalePatch :=
  let sellerInfo := find (fun s => String.eqb (seller_id s) (selectedSellerId st)) (sellers st) in
  let finalClientName := if isBlank (posClient st) then "CONSUMIDOR FINAL"%string else posClient st in
  mkPatch (Some (cart st)) (Some (user_id u)) (Some (user_name u))
          (Some (selectedSellerId st))
          (Some (match sellerInfo with Some s => seller_name s | None => "Desconhecido"%string end))
          (Some finalClientName) (Some (posDiscount st)) (Some (posFreight st))
          (Some (posOther st)) (Some (payments st)) (Some (creditInstallments st))
          (Some (totalGeneral st)) (Some (obs st)) (Some (posDeliveryAddress st))
          (Some (email st)) (Some (posPurchaseOrder st)) (Some (posCashierIdent st))
          (Some (if asBudget then BUDGET else PENDING)).

(** The payment check of a submit that is not a budget: [Some] notice when
    the submit is refused. *)
Definition submitPaymentCheck (st : Pos) : option Toast :=
  let currentTotalPaid := sumPayments (payments st) in
  if Qltb 0 (totalGeneral st) then
    if Qeq_bool currentTotalPaid 0 then Some (toast_error SelectPaymentMethod)
    else if Qltb (5 # 100) (Qabs (currentTotalPaid - totalGeneral st)) then
      let diff := totalGeneral st - currentTotalPaid in
      Some (toast_error (if Qltb 0 diff then PaymentMismatch true diff
                         else PaymentMismatch false (Qabs diff)))
    else None
  else None.

(** [serverId] and [now] are the identity and creation time the table gives
    a row that [createSale] inserts. *)
Definition handleSubmitSale (asBudget : bool) (serverId now : string)
    (st : Pos) (db : Store) : Pos * Store * list Toast :=
  if (length (cart st) =? 0)%nat then (st, db, [toast_error EmptyCart])
  else if negb (nonEmpty (selectedSellerId st)) then (st, db, [toast_error NoSalesperson])
  else
    match (if asBudget then None else submitPaymentCheck st) with
    | Some notice => (st, db, [notice])
    | None =>
        match sessionUser st with
        | None => (st, db, [toast_error InvalidSession])
        | Some u =>
            let payload := salePayload asBudget u st in
            match editingId st with
            | Some i =>
                match updateSale i payload db with
                | (inr _, db') =>
                    (resetSalesState st, db',
                     [toast_success (if asBudget then BudgetUpdated else SaleUpdated)])
                | (inl _, db') => (st, db', [toast_error ProcessingFailed])
                end
            | None =>
                match createSale serverId now payload db with
                | (inr _, db') =>
                    (resetSalesState st, db',
                     [toast_success (if asBudget then BudgetSaved else SaleRegistered)])
                | (inl _, db') => (st, db', [toast_error ProcessingFailed])
                end
            end
        end
    end.

(** The payload of the cashier's [updateSale]. *)
Definition cashierPayload (st : Pos) : SalePatch :=
  mkPatch None None None None None None None None None
          (Some (payments st)) (Some (creditInstallments st)) None None None
          None None (Some (posCashierIdent st)) None.

(** [now] is the completion time [completeSale] stamps. *)
Definition handleCashierFinalize (now : string) (st : Pos) (db : Store)
  : Pos * Store * list Toast :=
  match editingId st, sessionUser st with
  | Some i, Some u =>
      let paid := sumPayments (payments st) in
      if Qltb (5 # 100) (Qabs (paid - totalGeneral st))
      then (st, db, [toast_error (CashierMismatch (totalGeneral st - paid))])
      else
        match (let* _ := updateSale i (cashierPayload st) in
               completeSale i (user_id u) (user_name u) now) db with
        | (inr _, db') =>
            (set_activeTab TabPending (resetSalesState st), db',
             [toast_success SaleFinalized])
        | (inl e, db') => (st, db', [toast_error (ServiceFailure e)])
        end
  | _, _ => (st, db, [])
  end.

(** ** Money helpers *)

(** [\d]: a decimal digit. *)
Definition is_digit (c : ascii) : bool :=
  let n := N_of_ascii c in ((48 <=? n) && (n <=? 57))%N.

Definition digitChar (d : N) : ascii := ascii_of_N (48 + d).
Definition digitVal (c : ascii) : N := (N_of_ascii c - 48)%N.

(** [value.replace(/\D/g, '')] *)
Fixpoint digitsOnly (s : string) : string :=
  match s with
  | EmptyString => EmptyString
  | String c r => if is_digit c then String c (digitsOnly r) else digitsOnly r
  end.

Fixpoint parseDigits (acc : N) (s : string) : N :=
  match s with
  | EmptyString => acc
  | String c r => parseDigits (acc * 10 + digitVal c) r
  end.

(** [parseInt] on a string of decimal digits, the only strings
    [parseMoney] hands it. *)
Definition parseInt (s : string) : N := parseDigits 0 s.

Definition parseMoney (value : string) : Q :=
  let digits := digitsOnly value in
  inject_Z (Z.of_N (parseInt (if nonEmpty digits then digits else "0"%string))) / 100.

(** The decimal digits of [n] in front of [acc]; [fuel + 1] digits at most. *)
Fixpoint toDigits (fuel : nat) (n : N) (acc : string) : string :=
  let acc' := String (digitChar (n mod 10)) acc in
  match fuel with
  | O => acc'
  | S f => if (n <? 10)%N then acc' else toDigits f (n / 10) acc'
  end.

(** A number has no more decimal digits than binary ones. *)
Definition decimal (n : N) : string := toDigits (N.to_nat (N.size n)) n EmptyString.

(** The pt-BR grouping: a point before every group of three digits. *)
Fixpoint group (s : string) : string :=
  match s with
  | EmptyString => EmptyString
  | String c r =>
      String c (if ((String.length r mod 3 =? 0) && (0 <? String.length r))%nat
                then String "."%char (group r) else group r)
  end.

Definition twoDigits (m : N) : string :=
  String (digitChar (m / 10)) (String (digitChar (m mod 10)) EmptyString).

(** [value.toLocaleString('pt-BR', { minimumFractionDigits: 2,
    maximumFractionDigits: 2 })]: the amount rounded to the nearest cent
    (a half goes away from zero), a minus sign for a negative amount, the
    integer part grouped with points, a comma, two fraction digits. *)
Definition formatMoney (value : Q) : string :=
  let cents := Z.to_N (Qfloor (Qabs value * 100 + (1 # 2))) in
  ((if Qltb value 0 then "-" else EmptyString)
   +:+ group (decimal (cents / 100)) +:+ "," +:+ twoDigits (cents mod 100))%string.

(** ** Sample data

    The cart of the scenarios: two units of a product priced 10.00 with
    five in stock; a second product with seven in stock. *)

Definition widget : Product :=
  mkProduct "p1" "W-1" "Widget" EmptyString 10 5 EmptyString "UNID" true.

Definition gadget : Product :=
  mkProduct "p2" "G-1" "Gadget" EmptyString 4 7 EmptyString "UNID" true.

Definition twoWidgets : SaleItem :=
  mkSaleItem None "p1" (Some "W-1"%string) "Widget" 2 10 10 20 (Some "UNID"%string) None.

Definition threeGadgets : SaleItem :=
  mkSaleItem None "p2" (Some "G-1"%string) "Gadget" 3 4 4 12 (Some "UNID"%string) None.

Definition nineWidgets : SaleItem :=
  mkSaleItem None "p1" (Some "W-1"%string) "Widget" 9 10 10 90 (Some "UNID"%string) None.

Definition ghostItem : SaleItem :=
  mkSaleItem None "p0" None "Ghost" 1 1 1 1 None None.

(** A stored sale [s1] with the given status, items and global discount. *)
Definition sampleSale (s : SaleStatus) (l : list SaleItem) (total d : Q) : Sale :=
  mkSale "s1" "u1" "Ana" None None l total s "2024-01-01" None
         (Some "CONSUMIDOR FINAL"%string) d 0 0 None None None None None None
         None (Some "v1"%string) (Some "Bia"%string).

Definition sampleStore (sale : Sale) : Store :=
  mkStore (<["p1" := widget]> (<["p2" := gadget]> ∅)) (<["s1" := sale]> ∅).

(** The discounted sale of the scenarios: global discount 2.00 on 20.00. *)
Definition discountedStore : Store :=
  sampleStore (sampleSale PENDING [twoWidgets] 18 2).

(** A cancelled sale of two widgets. *)
Definition cancelledStore : Store :=
  sampleStore (sampleSale CANCELLED [twoWidgets] 20 0).

(** A pending sale asking for two widgets, then for nine more. *)
Definition greedySale : Sale := sampleSale PENDING [twoWidgets; nineWidgets] 110 0.
Definition greedyStore : Store := sampleStore greedySale.

(** [greedyStore] after the first item's decrement. *)
Definition greedyStore_after : Store :=
  mkStore (alter (set_stock (5 - 2)) "p1" (products greedyStore)) (sales greedyStore).

(** A completed sale of three gadgets and of one product that is gone. *)
Definition completedSale : Sale := sampleSale COMPLETED [threeGadgets; ghostItem] 13 0.
Definition completedStore : Store := sampleStore completedSale.

Definition cashierUser : User := mkUser "u9" "Caixa" "caixa" CASHIER true.

(** The view while the stored sale [s1] is open, with a cart and payments. *)
Definition samplePos (confirming : bool) (c : list SaleItem) (d : Q)
    (p : PaymentDetails) : Pos :=
  mkPos (Some cashierUser) [mkSeller "v1" "Bia" true] TabNew (Some "s1"%string)
        confirming c EmptyString "v1" EmptyString None d 0 0 p 1
        EmptyString EmptyString EmptyString EmptyString EmptyString
        false None twoWidgets false 0 0 EmptyString.

(** Twenty in cash. *)
Definition cashTwenty : PaymentDetails := mkPayments 20 0 0 0 0 0 0 0 0.

(** One unit of a three-cent article. *)
Definition pennyItem : SaleItem :=
  mkSaleItem None "p1" (Some "W-1"%string) "Widget" 1 (3 # 100) (3 # 100) (3 # 100)
             (Some "UNID"%string) None.

(** The cashier's view of a stored three-cent sale, nothing paid. *)
Definition pennyPos : Pos := samplePos true [pennyItem] 0 noPayments.
Definition pennyStore : Store := sampleStore (sampleSale PENDING [pennyItem] (3 # 100) 0).

(** The discount window over two widgets, a global discount of 2.00 typed. *)
Definition discountPos : Pos :=
  handleDiscountValueChange 2 (samplePos false [twoWidgets] 0 noPayments).

(** One article of 100.00 already marked down to 95.00. *)
Definition markedDownItem : SaleItem :=
  mkSaleItem None "p1" (Some "W-1"%string) "Widget" 1 95 100 95 (Some "UNID"%string) None.
Definition markedDownPos : Pos := samplePos false [markedDownItem] 0 noPayments.

(** The edit window on the first row, with the submitted quantity and price. *)
Definition editPos (qty unitP : Q) : Pos :=
  mkPos (Some cashierUser) [mkSeller "v1" "Bia" true] TabNew None false
        [twoWidgets] EmptyString "v1" EmptyString None 0 0 0 noPayments 1
        EmptyString EmptyString EmptyString EmptyString EmptyString true
        (Some 0%nat)
        (mkSaleItem None "p1" (Some "W-1"%string) "Widget" qty unitP 10 20
                    (Some "UNID"%string) None)
        false 0 0 EmptyString.

(** A new sale of two widgets in the view, with the given payments. *)
Definition newSalePos (p : PaymentDetails) : Pos :=
  mkPos (Some cashierUser) [mkSeller "v1" "Bia" true] TabNew None false
        [twoWidgets] EmptyString "v1" EmptyString None 0 0 0 p 1
        EmptyString EmptyString EmptyString EmptyString EmptyString
        false None twoWidgets false 0 0 EmptyString.

(** One article with original price 0 sold at 10.00, a global discount of
    2.00 typed, no token. *)
Definition freeArticle : SaleItem :=
  mkSaleItem None "p1" (Some "W-1"%string) "Widget" 1 10 0 10 (Some "UNID"%string) None.

(** The edit window on an article that is in the cart at a price of 0, with
    a price of 10.00 typed. *)
Definition freeEditPos : Pos :=
  mkPos (Some cashierUser) [mkSeller "v1" "Bia" true] TabNew None false
        [mkSaleItem None "p1" (Some "W-1"%string) "Widget" 1 0 0 0
                    (Some "UNID"%string) None]
        EmptyString "v1" EmptyString None 0 0 0 noPayments 1
        EmptyString EmptyString EmptyString EmptyString EmptyString true
        (Some 0%nat)
        (mkSaleItem None "p1" (Some "W-1"%string) "Widget" 1 10 0 0
                    (Some "UNID"%string) None)
        false 0 0 EmptyString.

(** Four widgets returned at the floor price of 9.40 next to two widgets
    sold at 10.00, no global discount typed. *)
Definition returnedWidgets : SaleItem :=
  mkSaleItem None "p1" (Some "W-1"%string) "Widget" (-4) (94 # 10) 10 (- (376 # 10))
             (Some "UNID"%string) None.
Definition returnPos : Pos :=
  handleDiscountValueChange 0 (samplePos false [returnedWidgets; twoWidgets] 0 noPayments).

(** ** Stock and line invariants *)

(** No stored product has a negative stock. *)
Definition stocks_nonneg (ps : gmap string Product) : Prop :=
  forall (pid : string) (p : Product), ps !! pid = Some p -> 0 <= stock p.

(** The line total of an item is its quantity times its unit price. *)
Definition line_ok (item : SaleItem) : Prop :=
  total item == quantity item * unitPrice item.

(** ** Adding, removing and opening cart rows *)

(** The quantity and price fields of the add-item form ([itemQty],
    [itemPrice]). *)
Record AddForm := mkAddForm {
  itemQty : Q;
  itemPrice : Q
}.

(** The two refusals of [handleAddItem]; the second prints the stock. *)
Inductive AddNotice :=
| SelectValidProduct
| CartStockShort (available : Q).

(** [setCart(c)] *)
Definition set_cart (c : list SaleItem) (st : Pos) : Pos :=
  mkPos (user st) (sellers st) (activeTab st) (editingSaleId st)
    (isCashierConfirming st) c (posClient st) (selectedSellerId st)
    (searchCode st) (selectedProduct st) (posDiscount st) (posFreight st)
    (posOther st) (payments st) (creditInstallments st) (obs st)
    (posDeliveryAddress st) (email st) (posCashierIdent st)
    (posPurchaseOrder st) (editModalOpen st) (editItemIndex st)
    (editItemData st) (discountModalOpen st) (tempDiscountValue st)
    (tempDiscountPercent st) (discountToken st).

(** [setSearchCode(code); setSelectedProduct(p)] *)
Definition set_selection (code : string) (p : option Product) (st : Pos) : Pos :=
  mkPos (user st) (sellers st) (activeTab st) (editingSaleId st)
    (isCashierConfirming st) (cart st) (posClient st) (selectedSellerId st)
    code p (posDiscount st) (posFreight st) (posOther st) (payments st)
    (creditInstallments st) (obs st) (posDeliveryAddress st) (email st)
    (posCashierIdent st) (posPurchaseOrder st) (editModalOpen st)
    (editItemIndex st) (editItemData st) (discountModalOpen st)
    (tempDiscountValue st) (tempDiscountPercent st) (discountToken st).

(** [setEditItemIndex(i); setEditItemData({ ...item }); setEditModalOpen(true)] *)
Definition set_edit (i : nat) (item : SaleItem) (st : Pos) : Pos :=
  mkPos (user st) (sellers st) (activeTab st) (editingSaleId st)
    (isCashierConfirming st) (cart st) (posClient st) (selectedSellerId st)
    (searchCode st) (selectedProduct st) (posDiscount st) (posFreight st)
    (posOther st) (payments st) (creditInstallments st) (obs st)
    (posDeliveryAddress st) (email st) (posCashierIdent st)
    (posPurchaseOrder st) true (Some i) item (discountModalOpen st)
    (tempDiscountValue st) (tempDiscountPercent st) (discountToken st).

(** The setters of handleEditSale, [hydrated] being the items it puts in the cart. *)
Definition loadSale (sale : Sale) (hydrated : list SaleItem) (st : Pos) : Pos :=
  mkPos (user st) (sellers st) TabNew (Some (sale_id sale))
    (isCashierConfirming st) hydrated (default EmptyString (clientName sale))
    (default EmptyString (salespersonId sale)) (searchCode st)
    (selectedProduct st) (num_or (discount sale) 0) (num_or (freight sale) 0)
    (num_or (otherCosts sale) 0)
    (default noPayments (sale_payments sale))
    (match installments sale with Some n => num_or n 1 | None => 1 end)
    (default EmptyString (sale_observation sale))
    (default EmptyString (deliveryAddress sale))
    (default EmptyString (customerEmail sale))
    (default EmptyString (cashierIdent sale))
    (default EmptyString (purchaseOrder sale)) (editModalOpen st)
    (editItemIndex st) (editItemData st) (discountModalOpen st)
    (tempDiscountValue st) (tempDiscountPercent st) (discountToken st).

(** [cart.filter(i => i.productId === pid).reduce((acc, i) => acc + i.quantity, 0)] *)
Definition currentInCart (pid : string) (c : list SaleItem) : Q :=
  fold_left (fun acc i => acc + quantity i)
            (List.filter (fun i => String.eqb (productId i) pid) c) 0.

(** [localId] is the value of [generateLocalId()] for the new row. *)
Definition handleAddItem (localId : string) (form : AddForm) (st : Pos)
  : Pos * AddForm * list AddNotice :=
  if isCashierConfirming st then (st, form, [])
  else
    match selectedProduct st with
    | None => (st, form, [SelectValidProduct])
    | Some p =>
        if Qltb (stock p) (currentInCart (prod_id p) (cart st) + itemQty form)
        then (st, form, [CartStockShort (stock p)])
        else
          let newItem :=
            mkSaleItem (Some localId) (prod_id p) (Some (code p)) (name p)
                       (itemQty form) (itemPrice form) (price p)
                       (itemPrice form * itemQty form)
                       (Some (if nonEmpty (prod_unit p) then prod_unit p
                              else "UNID"%string))
                       (Some EmptyString) in
          (set_selection EmptyString None (set_cart (cart st ++ [newItem]) st),
           mkAddForm 1 0, [])
    end.

(** [prev.filter((_, i) => i !== idx)], the rows being numbered from [i]. *)
Fixpoint dropIndex (idx i : nat) (l : list SaleItem) : list SaleItem :=
  match l with
  | [] => []
  | item :: rest =>
      if (i =? idx)%nat then dropIndex idx (S i) rest
      else item :: dropIndex idx (S i) rest
  end.

Definition handleRemoveItem (idx : nat) (st : Pos) : Pos :=
  set_cart (dropIndex idx 0 (cart st)) st.

(** [openEditModal(idx)] for the index of a cart row, the only indices the
    rows' buttons pass; for another index the window would open on an
    empty copy, which the edit data of this model cannot hold, and the
    state is left as it is. *)
Definition openEditModal (idx : nat) (st : Pos) : Pos :=
  match cart st !! idx with
  | Some item => set_edit idx item st
  | None => st
  end.

(** ** Opening a stored sale *)

(** One item as [handleEditSale] puts it in the cart: a fresh local
    identity, and the catalog's code where the item carries none. *)
Definition hydrateItem (catalog : list Product) (localId : string)
    (item : SaleItem) : SaleItem :=
  let fromCatalog :=
    code <$> find (fun p => String.eqb (prod_id p) (productId item)) catalog in
  mkSaleItem (Some localId) (productId item)
             (match productCode item with
              | Some c => if nonEmpty c then Some c else fromCatalog
              | None => fromCatalog
              end)
             (productName item) (quantity item) (unitPrice item)
             (originalPrice item) (total item) (item_unit item)
             (observation item).

(** [catalog] is the product list the view holds; [ids i] is the value of
    the call of [generateLocalId()] for the item at index [i]. *)
Definition handleEditSale (catalog : list Product) (ids : nat -> string)
    (sale : Sale) (st : Pos) : Pos :=
  loadSale sale (imap (fun i item => hydrateItem catalog (ids i) item) (items sale)) st.

(** ** Units of measure *)







(** ** The product catalog of the service *)

(** The failures of the catalog calls: the row is not there, or the table
    refuses the write. *)
Inductive CatalogError :=
| CatalogNotFound
| CatalogRefused.

(** [mapProduct] on a stored row: a row without unit reads as [UNID]. *)
Definition mapProduct (row : Product) : Product :=
  mkProduct (prod_id row) (code row) (name row) (description row) (price row)
            (stock row) (category row)
            (if nonEmpty (prod_unit row) then prod_unit row else "UNID"%string)
            (active row).

Definition set_active (b : bool) (p : Product) : Product :=
  mkProduct (prod_id p) (code p) (name p) (description p) (price p) (stock p)
            (category p) (prod_unit p) b.

Definition toggleProductActive (pid : string) (st : Store)
  : (CatalogError + Product) * Store :=
  match products st !! pid with
  | None => (inl CatalogNotFound, st)
  | Some current =>
      let row := set_active (negb (active current)) current in
      (inr (mapProduct row), mkStore (<[pid := row]> (products st)) (sales st))
  end.

(** The columns [saveProduct] writes, on the row with identity [rowId]. *)
Definition productPayload (rowId : string) (product : Product) : Product :=
  mkProduct rowId (code product) (name product) (description product)
            (price product) (stock product) (category product)
            (if nonEmpty (prod_unit product) then prod_unit product
             else "UNID"%string)
            (active product).

(** [serverId] is the identity the table gives an inserted row. *)
Definition saveProduct (serverId : string) (product : Product) (st : Store)
  : (CatalogError + Product) * Store :=
  if nonEmpty (prod_id product) then
    match products st !! prod_id product with
    | Some _ =>
        let row := productPayload (prod_id product) product in
        (inr (mapProduct row),
         mkStore (<[prod_id product := row]> (products st)) (sales st))
    | None => (inl CatalogRefused, st)
    end
  else
    match products st !! serverId with
    | Some _ => (inl CatalogRefused, st)
    | None =>
        let row := productPayload serverId product in
        (inr (mapProduct row), mkStore (<[serverId := row]> (products st)) (sales st))
    end.

(** ** The indicators of the dashboard *)

(** [sales.filter(s => s.status === status).length] *)
Definition countStatus (s : SaleStatus) (l : list Sale) : nat :=
  length (List.filter (fun x => status_eqb (status x) s) l).

Definition totalRevenue (l : list Sale) : Q :=
  fold_left (fun acc curr => acc + totalValue curr)
            (List.filter (fun x => status_eqb (status x) COMPLETED) l) 0.

Definition completedCount (l : list Sale) : nat := countStatus COMPLETED l.
Definition pendingCount (l : list Sale) : nat := countStatus PENDING l.
Definition cancelledCount (l : list Sale) : nat := countStatus CANCELLED l.

(** [.slice(-10)] *)
Definition lastTen {A} (l : list A) : list A := drop (length l - 10) l.

(** The values charted: the total of each of the last ten completed sales. *)
Definition chartValues (l : list Sale) : list Q :=
  map totalValue (lastTen (List.filter (fun x => status_eqb (status x) COMPLETED) l)).

(** The widget as the product form submits it: a new price and stock, the
    unit left empty. *)
Definition widgetForm : Product :=
  mkProduct "p1" "W-1" "Widget" EmptyString 12 8 EmptyString EmptyString true.
(** * Lemmas and theorems *)

(** ** Numbers and statuses *)

Lemma Qltb_lt x y : Qltb x y = true <-> x < y.
Proof.
  unfold Qltb. rewrite negb_true_iff. split; intros H.
  - apply Qnot_le_lt. intros Hle. apply Qle_bool_iff in Hle. congruence.
  - destruct (Qle_bool y x) eqn:E; [|reflexivity].
    apply Qle_bool_iff in E. exfalso. exact (Qlt_not_le _ _ H E).
Qed.

Lemma Qltb_ge x y : Qltb x y = false <-> y <= x.
Proof.
  unfold Qltb. rewrite negb_false_iff. apply Qle_bool_iff.
Qed.

Lemma truthy_true x : truthy x = true <-> ~ x == 0.
Proof.
  unfold truthy. rewrite negb_true_iff. split; intros H.
  - intros E. apply Qeq_bool_iff in E. congruence.
  - destruct (Qeq_bool x 0) eqn:E; [|reflexivity].
    apply Qeq_bool_iff in E. contradiction.
Qed.

Lemma truthy_false x : truthy x = false <-> x == 0.
Proof.
  unfold truthy. rewrite negb_false_iff. apply Qeq_bool_iff.
Qed.

Lemma status_eqb_eq a b : status_eqb a b = true <-> a = b.
Proof. destruct a, b; simpl; split; congruence. Qed.

(** ** Sums over lists *)

Lemma fold_sum_acc {A} (f : A -> Q) (l : list A) : forall acc : Q,
  fold_left (fun a x => a + f x) l acc == acc + fold_left (fun a x => a + f x) l 0.
Proof.
  induction l as [|x rest IH]; intros acc; simpl.
  - ring.
  - rewrite (IH (acc + f x)), (IH (0 + f x)). ring.
Qed.

Lemma fold_sum_cons {A} (f : A -> Q) (x : A) (l : list A) :
  fold_left (fun a y => a + f y) (x :: l) 0
  == f x + fold_left (fun a y => a + f y) l 0.
Proof. simpl. rewrite fold_sum_acc. ring. Qed.

Lemma fold_sum_app {A} (f : A -> Q) (l1 l2 : list A) :
  fold_left (fun a y => a + f y) (l1 ++ l2) 0
  == fold_left (fun a y => a + f y) l1 0 + fold_left (fun a y => a + f y) l2 0.
Proof. rewrite fold_left_app. apply fold_sum_acc. Qed.

Lemma fold_sum_right {A} (f : A -> Q) (l : list A) :
  fold_left (fun a x => a + f x) l 0 == fold_right (fun x acc => f x + acc) 0 l.
Proof.
  induction l as [|x rest IH]; [reflexivity|].
  rewrite fold_sum_cons, IH. reflexivity.
Qed.

(** ** The two stock loops *)

Lemma same_but_stock_set v p : same_but_stock p (set_stock v p).
Proof. reflexivity. Qed.

Lemma stock_moved_first (d d' : string -> Q) pid0 v (ps ps' : gmap string Product) prod :
  ps !! pid0 = Some prod ->
  stock_moved d' (alter (set_stock v) pid0 ps) ps' ->
  (forall pid, pid <> pid0 -> d pid == d' pid) ->
  stock prod + d pid0 == v + d' pid0 ->
  stock_moved d ps ps'.
Proof.
  intros Hp Hm Hne Heq pid. specialize (Hm pid).
  destruct (decide (pid = pid0)) as [->|Hd].
  - rewrite Hp. rewrite lookup_alter_eq, Hp in Hm. simpl in Hm.
    destruct Hm as (p' & Hl & Hs & Hst). exists p'. split; [exact Hl|]. split.
    + unfold same_but_stock in *. rewrite <- Hs. reflexivity.
    + rewrite Hst. simpl. symmetry. exact Heq.
  - rewrite lookup_alter_ne in Hm by congruence.
    destruct (ps !! pid) as [p|]; [|exact Hm].
    destruct Hm as (p' & Hl & Hs & Hst). exists p'. repeat split; try assumption.
    rewrite Hst. rewrite (Hne pid Hd). reflexivity.
Qed.

Lemma stock_moved_zero (d : string -> Q) (ps : gmap string Product) :
  (forall pid, d pid == 0) -> stock_moved d ps ps.
Proof.
  intros Hd pid. destruct (ps !! pid) as [p|]; [|reflexivity].
  exists p. repeat split. rewrite Hd. ring.
Qed.

Lemma quantityOf_cons_eq item l :
  quantityOf (productId item) (item :: l) = quantity item + quantityOf (productId item) l.
Proof. unfold quantityOf. simpl. rewrite String.eqb_refl. reflexivity. Qed.

Lemma quantityOf_cons_ne pid item l :
  pid <> productId item -> quantityOf pid (item :: l) = quantityOf pid l.
Proof.
  intros H. unfold quantityOf. simpl.
  destruct (String.eqb_spec (productId item) pid); congruence.
Qed.

Arguments quantityOf : simpl never.

(** The restore loop never throws, leaves the sales alone and adds to every
    stored product the quantity the items hold of it. *)
Lemma restoreLoop_spec l : forall st,
  exists ps', restoreLoop l st = (inr tt, mkStore ps' (sales st))
              /\ stock_moved (fun pid => quantityOf pid l) (products st) ps'.
Proof.
  induction l as [|item rest IH]; intros st.
  - exists (products st). split; [destruct st; reflexivity|].
    apply stock_moved_zero. reflexivity.
  - simpl. unfold bind, selectProduct. simpl.
    destruct (products st !! productId item) as [prod|] eqn:Hp.
    + unfold updateProductStock. simpl.
      destruct (IH (mkStore (alter (set_stock (stock prod + quantity item))
                                   (productId item) (products st)) (sales st)))
        as (ps' & Hrun & Hm).
      exists ps'. split; [exact Hrun|]. simpl in Hm.
      eapply stock_moved_first; [exact Hp|exact Hm| |].
      * intros pid Hne. rewrite quantityOf_cons_ne by exact Hne. reflexivity.
      * rewrite quantityOf_cons_eq. ring.
    + destruct (IH st) as (ps' & Hrun & Hm). exists ps'. split; [exact Hrun|].
      intros pid. specialize (Hm pid). cbv beta in *.
      destruct (decide (pid = productId item)) as [->|Hne].
      * rewrite Hp in *. exact Hm.
      * rewrite quantityOf_cons_ne by exact Hne. exact Hm.
Qed.

(** The stock loop leaves the sales alone, also when it throws. *)
Lemma stockLoop_sales l : forall st, sales (snd (stockLoop l st)) = sales st.
Proof.
  induction l as [|item rest IH]; intros st; [reflexivity|].
  simpl. unfold bind, selectProduct. simpl.
  destruct (products st !! productId item) as [prod|]; [|reflexivity].
  destruct (Qltb (stock prod) (quantity item)); [reflexivity|].
  unfold updateProductStock. simpl. rewrite IH. reflexivity.
Qed.

(** A run of the stock loop that does not throw has taken from every stored
    product the quantity the items hold of it. *)
Lemma stockLoop_ok_spec l : forall st st',
  stockLoop l st = (inr tt, st') ->
  sales st' = sales st
  /\ stock_moved (fun pid => - quantityOf pid l) (products st) (products st').
Proof.
  induction l as [|item rest IH]; intros st st' Hrun.
  - injection Hrun as <-. split; [reflexivity|].
    apply stock_moved_zero. reflexivity.
  - simpl in Hrun. unfold bind, selectProduct in Hrun. simpl in Hrun.
    destruct (products st !! productId item) as [prod|] eqn:Hp; [|discriminate].
    destruct (Qltb (stock prod) (quantity item)); [discriminate|].
    unfold updateProductStock in Hrun. simpl in Hrun.
    apply IH in Hrun. destruct Hrun as [Hs Hm]. simpl in *. split; [exact Hs|].
    eapply stock_moved_first; [exact Hp|exact Hm| |].
    + intros pid Hne. rewrite quantityOf_cons_ne by exact Hne. reflexivity.
    + rewrite quantityOf_cons_eq. ring.
Qed.

(** Running the loop over [pre ++ l] is running it over [pre], then over [l]
    from the store [pre] left. *)
Lemma stockLoop_app pre l : forall st st1,
  stockLoop pre st = (inr tt, st1) ->
  stockLoop (pre ++ l) st = stockLoop l st1.
Proof.
  induction pre as [|item rest IH]; intros st st1 Hrun.
  - injection Hrun as <-. reflexivity.
  - simpl in *. unfold bind, selectProduct in *. simpl in *.
    destruct (products st !! productId item) as [prod|]; [|discriminate].
    destruct (Qltb (stock prod) (quantity item)); [discriminate|].
    unfold updateProductStock in *. simpl in *. apply IH. exact Hrun.
Qed.

(** ** completeSale *)

(** What [completeSale] does with a stored sale that is not completed. *)
Lemma completeSale_run st saleId cashier cashierNm now sale :
  sales st !! saleId = Some sale ->
  status sale <> COMPLETED ->
  completeSale saleId cashier cashierNm now st =
    let finalItems := fst (distributeDiscount sale) in
    let done := finalizeRow cashier cashierNm now finalItems
                            (snd (distributeDiscount sale)) sale in
    match stockLoop finalItems st with
    | (inl e, st') => (inl e, st')
    | (inr _, st') =>
        (inr done, mkStore (products st') (<[saleId := done]> (sales st)))
    end.
Proof.
  intros Hsale Hst. unfold completeSale, bind, selectSale. simpl. rewrite Hsale.
  destruct (status_eqb (status sale) COMPLETED) eqn:E.
  { apply status_eqb_eq in E. contradiction. }
  destruct (distributeDiscount sale) as [finalItems finalDiscount]. simpl.
  pose proof (stockLoop_sales finalItems st) as Hs.
  destruct (stockLoop finalItems st) as [[e|[]] st']; [reflexivity|].
  simpl in Hs. unfold updateSaleRow. rewrite Hs, Hsale. reflexivity.
Qed.

Lemma completeSale_completed st saleId cashier cashierNm now sale :
  sales st !! saleId = Some sale ->
  status sale = COMPLETED ->
  completeSale saleId cashier cashierNm now st = (inl AlreadyCompleted, st).
Proof.
  intros Hsale Hst. unfold completeSale, bind, selectSale. simpl.
  rewrite Hsale, Hst. reflexivity.
Qed.

Lemma completeSale_absent st saleId cashier cashierNm now :
  sales st !! saleId = None ->
  completeSale saleId cashier cashierNm now st = (inl SaleNotFound, st).
Proof.
  intros Hsale. unfold completeSale, bind, selectSale. simpl.
  rewrite Hsale. reflexivity.
Qed.

Lemma scaleItem_Forall2 f l :
  Forall2 (fun old new : SaleItem =>
             unitPrice new = unitPrice old * f
             /\ total new = unitPrice new * quantity new
             /\ quantity new = quantity old
             /\ productId new = productId old)
          l (map (scaleItem f) l).
Proof.
  induction l as [|item rest IH]; constructor; [|exact IH].
  repeat split.
Qed.

(** C1.  A sale that [completeSale] loads with global discount [D > 0] and
    item subtotal [S > 0] gets every unit price multiplied by
    [(S - D) / S], every total recomputed as the new unit price times the
    quantity, and, once the stock loop has passed, is stored with these
    items, discount 0 and status Completed.  With [S = 0] the items and the
    discount are stored as they were.  On a sale that is already Completed
    the call fails with AlreadyCompleted and the store is unchanged; in
    particular this is what a second call after a successful one does. *)
Theorem completeSale_redistribution
    (st : Store) (saleId cashier cashierNm now : string) (sale : Sale) :
  sales st !! saleId = Some sale ->
  let S := itemsSubTotal (items sale) in
  let D := discount sale in
  (status sale <> COMPLETED -> 0 < D -> 0 < S ->
   exists newItems : list SaleItem,
     Forall2 (fun old new : SaleItem =>
                unitPrice new = unitPrice old * ((S - D) / S)
                /\ total new = unitPrice new * quantity new
                /\ quantity new = quantity old
                /\ productId new = productId old)
             (items sale) newItems
     /\ match stockLoop newItems st with
        | (inl e, st') =>
            completeSale saleId cashier cashierNm now st = (inl e, st')
        | (inr _, st') =>
            exists done : Sale,
              completeSale saleId cashier cashierNm now st
              = (inr done, mkStore (products st') (<[saleId := done]> (sales st)))
              /\ items done = newItems /\ discount done = 0
              /\ status done = COMPLETED
        end)
  /\ (status sale <> COMPLETED -> 0 < D -> S == 0 ->
      match stockLoop (items sale) st with
      | (inl e, st') =>
          completeSale saleId cashier cashierNm now st = (inl e, st')
      | (inr _, st') =>
          exists done : Sale,
            completeSale saleId cashier cashierNm now st
            = (inr done, mkStore (products st') (<[saleId := done]> (sales st)))
            /\ items done = items sale /\ discount done = D
            /\ status done = COMPLETED
      end)
  /\ (status sale = COMPLETED ->
      completeSale saleId cashier cashierNm now st = (inl AlreadyCompleted, st))
  /\ (forall (done : Sale) (st' : Store),
        completeSale saleId cashier cashierNm now st = (inr done, st') ->
        forall c n t : string,
          completeSale saleId c n t st' = (inl AlreadyCompleted, st')).
Proof.
  intros Hsale S D. repeat split.
  - intros Hst HD HS.
    exists (map (scaleItem ((S - D) / S)) (items sale)).
    split; [apply scaleItem_Forall2|].
    rewrite (completeSale_run _ _ _ _ _ _ Hsale Hst).
    unfold distributeDiscount. fold D S.
    apply Qltb_lt in HD, HS. rewrite HD, HS. simpl.
    destruct (stockLoop _ st) as [[e|u] st']; [reflexivity|].
    eexists. split; [reflexivity|]. repeat split.
  - intros Hst HD HS.
    rewrite (completeSale_run _ _ _ _ _ _ Hsale Hst).
    unfold distributeDiscount. fold D S.
    apply Qltb_lt in HD. rewrite HD.
    assert (Qltb 0 S = false) as ->.
    { apply Qltb_ge. rewrite HS. apply Qle_refl. }
    simpl.
    destruct (stockLoop _ st) as [[e|u] st']; [reflexivity|].
    eexists. split; [reflexivity|]. repeat split.
  - intros Hst. exact (completeSale_completed _ _ _ _ _ _ Hsale Hst).
  - intros done st' Hrun c n t.
    assert (status sale = COMPLETED \/ status sale <> COMPLETED) as [Hc|Hc]
      by (destruct (status sale); (left; reflexivity) || (right; discriminate)).
    { rewrite (completeSale_completed _ _ _ _ _ _ Hsale Hc) in Hrun. discriminate. }
    rewrite (completeSale_run _ _ _ _ _ _ Hsale Hc) in Hrun. simpl in Hrun.
    destruct (stockLoop _ st) as [[e|u] st1]; [discriminate|].
    injection Hrun as <- <-.
    apply completeSale_completed with (sale := finalizeRow cashier cashierNm now
        (fst (distributeDiscount sale)) (snd (distributeDiscount sale)) sale).
    + simpl. apply lookup_insert_eq.
    + reflexivity.
Qed.

Lemma completeSale_redistribution_witness :
  exists newItems : list SaleItem,
    Forall2 (fun old new : SaleItem =>
               unitPrice new = unitPrice old * ((20 - 2) / 20)
               /\ total new = unitPrice new * quantity new
               /\ quantity new = quantity old
               /\ productId new = productId old)
            [twoWidgets] newItems
    /\ match stockLoop newItems discountedStore with
       | (inl e, st') =>
           completeSale "s1" "u9" "Caixa" "2024-01-02" discountedStore = (inl e, st')
       | (inr _, st') =>
           exists done : Sale,
             completeSale "s1" "u9" "Caixa" "2024-01-02" discountedStore
             = (inr done, mkStore (products st')
                                  (<["s1" := done]> (sales discountedStore)))
             /\ items done = newItems /\ discount done = 0
             /\ status done = COMPLETED
       end.
Proof.
  apply (completeSale_redistribution discountedStore "s1" "u9" "Caixa" "2024-01-02"
           (sampleSale PENDING [twoWidgets] 18 2) eq_refl).
  - discriminate.
  - reflexivity.
  - reflexivity.
Defined.

(** The discounted sale of the scenarios completes: unit price 9, item
    total 18, stored discount 0, and three widgets left. *)
Example completeSale_discounted_scenario :
  exists (done : Sale) (st' : Store) (item : SaleItem) (p : Product),
    completeSale "s1" "u9" "Caixa" "2024-01-02" discountedStore = (inr done, st')
    /\ items done = [item] /\ unitPrice item == 9 /\ total item == 18
    /\ discount done = 0 /\ status done = COMPLETED
    /\ finishedAt done = Some "2024-01-02"%string
    /\ products st' !! "p1"%string = Some p /\ stock p == 3.
Proof.
  do 4 eexists. split; [vm_compute; reflexivity|].
  repeat split; reflexivity.
Qed.

(** C2.  [completeSale] on a stored sale whose status is Cancelled does not
    fail: it takes the items from the stock and stores the sale as
    Completed. *)
Theorem completeSale_completes_cancelled_sale :
  exists (done : Sale) (st' : Store) (p : Product),
    completeSale "s1" "u9" "Caixa" "2024-01-02" cancelledStore = (inr done, st')
    /\ status done = COMPLETED
    /\ sales st' !! "s1"%string = Some done
    /\ products st' !! "p1"%string = Some p /\ stock p == 3.
Proof.
  do 3 eexists. split; [vm_compute; reflexivity|].
  repeat split; reflexivity.
Qed.

(** C3.  When the stock loop has passed the items [pre] and reaches an item
    whose product is gone, [completeSale] fails with ProductNotFound; when
    the product's re-read stock is below the item's quantity, it fails with
    InsufficientStock naming the product and that stock.  In both cases the
    store it leaves is the one the loop over [pre] left: the failing item's
    product is not written, the sale is not written, and every product has
    lost the quantities [pre] holds of it. *)
Theorem completeSale_stock_failure
    (st st1 : Store) (saleId cashier cashierNm now : string) (sale : Sale)
    (pre post : list SaleItem) (item : SaleItem) :
  sales st !! saleId = Some sale ->
  status sale <> COMPLETED ->
  fst (distributeDiscount sale) = pre ++ item :: post ->
  stockLoop pre st = (inr tt, st1) ->
  (products st1 !! productId item = None ->
   completeSale saleId cashier cashierNm now st
   = (inl (ProductNotFound (productName item)), st1))
  /\ (forall prod : Product,
        products st1 !! productId item = Some prod ->
        stock prod < quantity item ->
        completeSale saleId cashier cashierNm now st
        = (inl (InsufficientStock (name prod) (stock prod)), st1))
  /\ sales st1 = sales st
  /\ stock_moved (fun pid => - quantityOf pid pre) (products st) (products st1).
Proof.
  intros Hsale Hst Hitems Hpre.
  pose proof (completeSale_run st saleId cashier cashierNm now sale Hsale Hst) as Hrun.
  simpl in Hrun. rewrite Hitems, (stockLoop_app pre (item :: post) st st1 Hpre) in Hrun.
  simpl in Hrun. unfold bind at 1, selectProduct in Hrun. simpl in Hrun.
  split; [|split].
  - intros Hnone. rewrite Hnone in Hrun. exact Hrun.
  - intros prod Hprod Hlt. rewrite Hprod in Hrun.
    apply Qltb_lt in Hlt. rewrite Hlt in Hrun. exact Hrun.
  - exact (stockLoop_ok_spec pre st st1 Hpre).
Qed.

Lemma completeSale_stock_failure_witness :
  completeSale "s1" "u9" "Caixa" "2024-01-02" greedyStore
  = (inl (InsufficientStock "Widget" (5 - 2)), greedyStore_after).
Proof.
  pose proof (completeSale_stock_failure greedyStore greedyStore_after
                "s1" "u9" "Caixa" "2024-01-02" greedySale
                [twoWidgets] [] nineWidgets
                eq_refl ltac:(discriminate) eq_refl eq_refl) as (_ & H & _).
  exact (H (set_stock (5 - 2) widget) eq_refl eq_refl).
Defined.

(** ** cancelSale *)

(** C4.  [cancelSale] on a stored sale returns it with status Cancelled and
    stores it so, whatever its status was.  When the status was Completed,
    every stored product gains the quantities the items hold of it, and an
    item whose product is gone is passed over without a failure; when the
    status was anything else, the products are unchanged. *)
Theorem cancelSale_restores_completed_only
    (st : Store) (saleId : string) (sale : Sale) :
  sales st !! saleId = Some sale ->
  exists ps' : gmap string Product,
    cancelSale saleId st
    = (inr (set_status CANCELLED sale),
       mkStore ps' (<[saleId := set_status CANCELLED sale]> (sales st)))
    /\ status (set_status CANCELLED sale) = CANCELLED
    /\ (status sale = COMPLETED ->
        stock_moved (fun pid => quantityOf pid (items sale)) (products st) ps')
    /\ (status sale <> COMPLETED -> ps' = products st).
Proof.
  intros Hsale. unfold cancelSale, bind, selectSale. simpl. rewrite Hsale.
  destruct (status_eqb (status sale) COMPLETED) eqn:E.
  - apply status_eqb_eq in E.
    destruct (restoreLoop_spec (items sale) st) as (ps' & Hrun & Hm).
    exists ps'. rewrite Hrun. unfold updateSaleRow. simpl. rewrite Hsale.
    repeat split; [intros _; exact Hm | intros Hne; contradiction].
  - exists (products st). unfold ret, updateSaleRow. simpl. rewrite Hsale.
    repeat split.
    intros Hc. apply status_eqb_eq in Hc. congruence.
Qed.

Lemma cancelSale_restores_completed_only_witness :
  exists ps' : gmap string Product,
    cancelSale "s1" completedStore
    = (inr (set_status CANCELLED completedSale),
       mkStore ps' (<["s1" := set_status CANCELLED completedSale]>
                      (sales completedStore)))
    /\ status (set_status CANCELLED completedSale) = CANCELLED
    /\ (status completedSale = COMPLETED ->
        stock_moved (fun pid => quantityOf pid (items completedSale))
                    (products completedStore) ps')
    /\ (status completedSale <> COMPLETED -> ps' = products completedStore).
Proof.
  exact (cancelSale_restores_completed_only completedStore "s1" completedSale eq_refl).
Defined.

(** Cancelling the completed sale of three gadgets brings the gadgets from
    seven to ten; the item whose product is gone raises nothing. *)
Example cancelSale_completed_scenario :
  exists (s : Sale) (st' : Store) (p : Product),
    cancelSale "s1" completedStore = (inr s, st')
    /\ status s = CANCELLED
    /\ products st' !! "p2"%string = Some p /\ stock p == 10
    /\ products st' !! "p0"%string = None.
Proof.
  do 3 eexists. split; [vm_compute; reflexivity|].
  repeat split; reflexivity.
Qed.

(** ** Payments *)

Lemma sumPayments_split key p :
  sumPayments p == getPayment key p + othersPaid key p.
Proof.
  destruct key; unfold sumPayments, othersPaid, paymentValues, paymentKeys;
    simpl; ring.
Qed.

Lemma othersPaid_set key v p : othersPaid key (setPayment key v p) = othersPaid key p.
Proof. destruct key; reflexivity. Qed.

Lemma getPayment_set key v p : getPayment key (setPayment key v p) = v.
Proof. destruct key; reflexivity. Qed.

Lemma getPayment_set_ne key k v p :
  k <> key -> getPayment k (setPayment key v p) = getPayment k p.
Proof. destruct key, k; intros H; try reflexivity; contradiction. Qed.

Lemma sumPayments_set key v p :
  sumPayments (setPayment key v p) == v + othersPaid key p.
Proof.
  rewrite (sumPayments_split key), getPayment_set, othersPaid_set. reflexivity.
Qed.

(** C6.  Setting the amount of a method to [value] is refused with
    ExceedsRemaining, the state unchanged, when [value] is above
    [grandTotal] minus the other methods' amounts plus 0.001; otherwise the
    method's amount becomes [value] and nothing else changes.  So a set that
    would bring the sum of all methods above [grandTotal + 0.001] is
    refused, and one that brings it to [grandTotal] is carried out. *)
Theorem handlePaymentChange_bound (st : Pos) (key : PaymentKey) (value : Q) :
  let G := totalGeneral st in
  let others := othersPaid key (payments st) in
  (G - others + (1 # 1000) < value ->
   exists room : Q,
     handlePaymentChange key value st = (st, [toast_error (ExceedsRemaining room)])
     /\ room == G - others)
  /\ (value <= G - others + (1 # 1000) ->
      handlePaymentChange key value st
      = (set_payments (setPayment key value (payments st)) st, [])
      /\ getPayment key (payments (fst (handlePaymentChange key value st))) = value
      /\ forall k : PaymentKey, k <> key ->
           getPayment k (payments (fst (handlePaymentChange key value st)))
           = getPayment k (payments st))
  /\ (G + (1 # 1000) < sumPayments (setPayment key value (payments st)) ->
      fst (handlePaymentChange key value st) = st
      /\ exists room : Q,
           snd (handlePaymentChange key value st) = [toast_error (ExceedsRemaining room)])
  /\ (sumPayments (setPayment key value (payments st)) == G ->
      handlePaymentChange key value st
      = (set_payments (setPayment key value (payments st)) st, [])).
Proof.
  intros G others.
  pose proof (sumPayments_split key (payments st)) as Hsplit.
  pose proof (sumPayments_set key value (payments st)) as Hset.
  fold others in Hsplit, Hset.
  assert (Hroom : G - (sumPayments (payments st) - getPayment key (payments st))
                  == G - others) by (rewrite Hsplit; ring).
  assert (Hrej : G - others + (1 # 1000) < value ->
                 handlePaymentChange key value st
                 = (st, [toast_error (ExceedsRemaining
                      (G - (sumPayments (payments st) - getPayment key (payments st))))])).
  { intros H. unfold handlePaymentChange. fold G.
    assert (Qltb (G - (sumPayments (payments st) - getPayment key (payments st))
                  + (1 # 1000)) value = true) as ->; [|reflexivity].
    apply Qltb_lt. rewrite Hroom. exact H. }
  assert (Hacc : value <= G - others + (1 # 1000) ->
                 handlePaymentChange key value st
                 = (set_payments (setPayment key value (payments st)) st, [])).
  { intros H. unfold handlePaymentChange. fold G.
    assert (Qltb (G - (sumPayments (payments st) - getPayment key (payments st))
                  + (1 # 1000)) value = false) as ->; [|reflexivity].
    apply Qltb_ge. rewrite Hroom. exact H. }
  split; [|split; [|split]].
  - intros H. eexists. split; [exact (Hrej H)|exact Hroom].
  - intros H. rewrite (Hacc H). simpl. split; [reflexivity|]. split.
    + apply getPayment_set.
    + intros k Hk. apply getPayment_set_ne. exact Hk.
  - intros H. rewrite Hrej; [simpl; eauto|]. rewrite Hset in H. lra.
  - intros H. apply Hacc. rewrite Hset in H. lra.
Qed.

Lemma handlePaymentChange_bound_witness :
  (exists room : Q,
     handlePaymentChange Kpix 1 (samplePos false [twoWidgets] 0 cashTwenty)
     = (samplePos false [twoWidgets] 0 cashTwenty, [toast_error (ExceedsRemaining room)])
     /\ room == 20 - 20)
  /\ handlePaymentChange Kcash 20 (samplePos false [twoWidgets] 0 noPayments)
     = (samplePos false [twoWidgets] 0 cashTwenty, []).
Proof.
  split.
  - apply (handlePaymentChange_bound (samplePos false [twoWidgets] 0 cashTwenty) Kpix 1).
    reflexivity.
  - apply (handlePaymentChange_bound (samplePos false [twoWidgets] 0 noPayments) Kcash 20).
    reflexivity.
Defined.

(** ** The discount window *)

(** The baseline price is [originalPrice || unitPrice]. *)
Lemma num_or_baseline (item : SaleItem) :
  num_or (originalPrice item) (unitPrice item) = baselinePrice item.
Proof.
  unfold num_or, truthy, baselinePrice.
  destruct (Qeq_bool (originalPrice item) 0); reflexivity.
Qed.

Lemma totalOriginalValue_baseline (st : Pos) :
  totalOriginalValue st == baselineValue (cart st).
Proof.
  unfold totalOriginalValue, baselineValue.
  rewrite (fold_sum_right
             (fun item => quantity item
                          * num_or (originalPrice item) (unitPrice item))).
  induction (cart st) as [|item rest IH]; [reflexivity|].
  simpl. rewrite IH, num_or_baseline. reflexivity.
Qed.

Lemma subTotal_cartSubtotal (st : Pos) : subTotal st == cartSubtotal (cart st).
Proof. unfold subTotal, cartSubtotal. apply (fold_sum_right total). Qed.

(** The percentage the discount handlers compute is the baseline
    percentage of the cart. *)
Lemma effectivePercent_baseline (st : Pos) (v : Q) :
  effectivePercent st v == baselineDiscountPct (cart st) v.
Proof.
  pose proof (totalOriginalValue_baseline st) as Hov.
  pose proof (subTotal_cartSubtotal st) as Hsub.
  unfold effectivePercent, baselineDiscountPct, discountFromItems.
  destruct (Qltb 0 (totalOriginalValue st)) eqn:E.
  - apply Qltb_lt in E.
    destruct (Qle_bool (baselineValue (cart st)) 0) eqn:E0.
    + apply Qle_bool_iff in E0. lra.
    + rewrite <- Hov, <- Hsub. field. lra.
  - apply Qltb_ge in E.
    assert (H0 : baselineValue (cart st) <= 0) by lra.
    apply Qle_bool_iff in H0. rewrite H0. reflexivity.
Qed.

(** [trim()] leaves nothing of blanks, of a no-break space or of an
    ideographic space, and keeps a letter. *)
Example isBlank_ascii : isBlank "  " = true.
Proof. reflexivity. Qed.

Example isBlank_no_break_space :
  isBlank (String "194"%char (String "160"%char " ")) = true.
Proof. reflexivity. Qed.

Example isBlank_ideographic_space : isBlank "　" = true.
Proof. reflexivity. Qed.

Example isBlank_letter : isBlank " é " = false.
Proof. reflexivity. Qed.

(** The lengths [.length] answers: one unit for a character of one to three
    bytes, two for a character of four bytes. *)
Example js_length_ascii : js_length "abcd" = 4%nat.
Proof. reflexivity. Qed.

Example js_length_accented : js_length "não" = 3%nat.
Proof. reflexivity. Qed.

Example js_length_astral : js_length "😀" = 2%nat.
Proof. reflexivity. Qed.


(** The cart of the free article is one the view builds: the article is
    in the cart at its price of 0 and the edit window sets the price to
    10.00. *)
Example freeArticle_from_edit :
  cart (fst (saveEditItem freeEditPos)) = [freeArticle]
  /\ snd (saveEditItem freeEditPos) = [].
Proof. split; reflexivity. Qed.

(** The other way round, with a negative quantity: four widgets returned
    at the floor price next to two widgets sold give an original value of
    -20.00 and 12 per cent in the words of the specification; the code
    takes the percentage as 0 and applies the discount without a token. *)
Example confirmDiscount_negative_quantity :
  spec_originalValue (cart returnPos) == -20
  /\ spec_cartDiscountPct (cart returnPos) (tempDiscountValue returnPos) == 12
  /\ discountToken returnPos = EmptyString
  /\ tempDiscountPercent returnPos == 0
  /\ confirmDiscount returnPos = (applyDiscount (tempDiscountValue returnPos) returnPos, []).
Proof. repeat split; reflexivity. Qed.

(** The returned widgets come from the edit window as well: a quantity of
    -4 and a price of 5.00 on the widget of 10.00. *)
Example returnedWidgets_from_edit :
  exists row : SaleItem,
    cart (fst (saveEditItem (editPos (-4) 5))) = [row]
    /\ quantity row = quantity returnedWidgets
    /\ unitPrice row == unitPrice returnedWidgets
    /\ originalPrice row = originalPrice returnedWidgets
    /\ total row == total returnedWidgets.
Proof. eexists. repeat split; reflexivity. Qed.



(** ** saveEditItem *)

Lemma num_or_zero_r (x : Q) : num_or x 0 == x.
Proof.
  unfold num_or. destruct (truthy x) eqn:E; [reflexivity|].
  apply truthy_false in E. symmetry. exact E.
Qed.

(** [originalPrice || unitPrice || 0] *)
Lemma original_cases (op up : Q) :
  (truthy op = true /\ num_or (num_or op up) 0 = op)
  \/ (truthy op = false /\ truthy up = true /\ num_or (num_or op up) 0 = up)
  \/ (truthy op = false /\ truthy up = false /\ num_or (num_or op up) 0 = 0).
Proof.
  unfold num_or. destruct (truthy op) eqn:Eo.
  - left. rewrite Eo. split; reflexivity.
  - destruct (truthy up) eqn:Eu.
    + right; left. repeat split.
    + right; right. repeat split.
Qed.

(** The price an edit settles on, for prices that are not negative. *)
Lemma editedPrice_cases (edit : SaleItem) :
  0 <= unitPrice edit -> 0 <= originalPrice edit ->
  (unitPrice edit == 0 ->
   exists fp : Q, editedPrice edit = (fp, [toast_info PriceReverted])
                  /\ fp == originalPrice edit)
  /\ (~ unitPrice edit == 0 -> unitPrice edit < (94 # 100) * originalPrice edit ->
      exists fp : Q, editedPrice edit = (fp, [toast_info PriceFloored])
                     /\ fp == (94 # 100) * originalPrice edit)
  /\ (~ unitPrice edit == 0 -> (94 # 100) * originalPrice edit <= unitPrice edit ->
      editedPrice edit = (unitPrice edit, [])).
Proof.
  intros Hu Ho. unfold editedPrice.
  destruct (original_cases (originalPrice edit) (unitPrice edit))
    as [(Eo & ->)|[(Eo & Eu & ->)|(Eo & Eu & ->)]].
  - (* the original price is not zero *)
    pose proof (proj1 (truthy_true _) Eo) as Ho'.
    destruct (truthy (unitPrice edit)) eqn:Eu; simpl.
    + pose proof (proj1 (truthy_true _) Eu) as Hu'.
      split; [intros H; contradiction|]. split.
      * intros _ Hlt.
        assert (Qltb (unitPrice edit) (originalPrice edit * (94 # 100)) = true) as ->
          by (apply Qltb_lt; lra).
        eexists. split; [reflexivity|]. ring.
      * intros _ Hge.
        assert (Qltb (unitPrice edit) (originalPrice edit * (94 # 100)) = false) as ->
          by (apply Qltb_ge; lra).
        reflexivity.
    + pose proof (proj1 (truthy_false _) Eu) as Hu'.
      split; [|split; intros H; contradiction].
      intros _.
      assert (Qltb (originalPrice edit) (originalPrice edit * (94 # 100)) = false) as ->
        by (apply Qltb_ge; lra).
      eexists. split; reflexivity.
  - (* no original price: the submitted price stands for it *)
    pose proof (proj1 (truthy_false _) Eo) as Ho'.
    pose proof (proj1 (truthy_true _) Eu) as Hu'.
    rewrite Eu. simpl.
    split; [intros H; contradiction|]. split.
    + intros _ Hlt. exfalso. lra.
    + intros _ _.
      assert (Qltb (unitPrice edit) (unitPrice edit * (94 # 100)) = false) as ->
        by (apply Qltb_ge; lra).
      reflexivity.
  - (* both zero *)
    pose proof (proj1 (truthy_false _) Eo) as Ho'.
    pose proof (proj1 (truthy_false _) Eu) as Hu'.
    rewrite Eu. simpl.
    split; [|split; intros H; contradiction].
    intros _. eexists. split; [reflexivity|]. symmetry. exact Ho'.
Qed.

Lemma storeRow_in_range (i : nat) (x old : SaleItem) (l : list SaleItem) :
  l !! i = Some old -> storeRow i x l = <[i := x]> l.
Proof.
  intros H. unfold storeRow.
  apply lookup_lt_Some in H. apply Nat.ltb_lt in H. rewrite H. reflexivity.
Qed.

Lemma storeRow_at_end (i : nat) (x : SaleItem) (l : list SaleItem) :
  l !! i = None -> storeRow i x l = l ++ [x].
Proof.
  intros H. unfold storeRow.
  apply lookup_ge_None in H. apply Nat.ltb_ge in H. rewrite H. reflexivity.
Qed.

(** C8 as stated fails: with the quantity field at 0 and a price of 5.00
    typed for an article of 10.00, nothing is saved.  The row keeps its
    price of 10.00, not the floor of 9.40, its total stays 20.00, not 0
    times the price, and no notice is raised. *)
Lemma saveEditItem_zero_quantity_counterexample :
  editItemIndex (editPos 0 5) = Some 0%nat
  /\ quantity (editItemData (editPos 0 5)) == 0
  /\ unitPrice (editItemData (editPos 0 5)) < (94 # 100) * originalPrice (editItemData (editPos 0 5))
  /\ saveEditItem (editPos 0 5) = (editPos 0 5, [])
  /\ exists row : SaleItem,
       cart (fst (saveEditItem (editPos 0 5))) = [row]
       /\ unitPrice row == 10
       /\ ~ unitPrice row == (94 # 100) * originalPrice (editItemData (editPos 0 5))
       /\ total row == 20
       /\ ~ total row == quantity (editItemData (editPos 0 5)) * unitPrice row.
Proof.
  split; [reflexivity|]. split; [reflexivity|]. split; [reflexivity|].
  split; [reflexivity|].
  eexists. split; [reflexivity|]. repeat split; try reflexivity; discriminate.
Qed.

(** C8, amended.  For an edit of a cart row with prices that are not
    negative: with a quantity of zero the edit is dropped whole, the state
    stays as it is and no notice is raised; with any other quantity the
    edit goes through, the row gets the submitted quantity, a unit price
    and the total quantity times that unit price.  A submitted price of
    zero is replaced by the original price, under a notice; a non-zero
    submitted price below [0.94 * originalPrice] is replaced by exactly
    that floor, under a notice; any other price is kept.  The notices are
    informative toasts only. *)
Theorem saveEditItem_price_rules (st : Pos) (i : nat) (old : SaleItem) :
  editItemIndex st = Some i ->
  cart st !! i = Some old ->
  0 <= unitPrice (editItemData st) ->
  0 <= originalPrice (editItemData st) ->
  let edit := editItemData st in
  (quantity edit == 0 -> saveEditItem st = (st, []))
  /\ (~ quantity edit == 0 ->
      exists (newItem : SaleItem) (notices : list Toast),
        saveEditItem st = (set_cart_closeEdit (<[i := newItem]> (cart st)) st, notices)
        /\ cart (fst (saveEditItem st)) !! i = Some newItem
        /\ quantity newItem = quantity edit
        /\ total newItem == quantity newItem * unitPrice newItem
        /\ (unitPrice edit == 0 ->
            unitPrice newItem == originalPrice edit
            /\ notices = [toast_info PriceReverted])
        /\ (~ unitPrice edit == 0 -> unitPrice edit < (94 # 100) * originalPrice edit ->
            unitPrice newItem == (94 # 100) * originalPrice edit
            /\ notices = [toast_info PriceFloored])
        /\ (~ unitPrice edit == 0 -> (94 # 100) * originalPrice edit <= unitPrice edit ->
            unitPrice newItem = unitPrice edit /\ notices = [])
        /\ Forall (fun t => exists m : Message, t = toast_info m) notices).
Proof.
  intros Hidx Hold Hu Ho edit. split.
  { intros Hq. unfold saveEditItem. rewrite Hidx.
    fold edit. rewrite (proj2 (truthy_false _) Hq). reflexivity. }
  intros Hq.
  destruct (editedPrice_cases edit Hu Ho) as (Hzero & Hfloor & Hkeep).
  unfold saveEditItem. rewrite Hidx.
  fold edit. rewrite (proj2 (truthy_true _) Hq).
  destruct (editedPrice edit) as [finalPrice notices] eqn:Eprice.
  rewrite Hold, (storeRow_in_range _ _ _ _ Hold).
  eexists. exists notices. split; [reflexivity|]. simpl.
  split.
  { apply list_lookup_insert_eq. eapply lookup_lt_Some. exact Hold. }
  split; [reflexivity|]. split.
  { rewrite !num_or_zero_r. reflexivity. }
  split; [|split; [|split]].
  - intros Hz. destruct (Hzero Hz) as (fp & Heq & Hfp).
    injection Heq as -> ->. split; [exact Hfp|reflexivity].
  - intros Hnz Hlt. destruct (Hfloor Hnz Hlt) as (fp & Heq & Hfp).
    injection Heq as -> ->. split; [exact Hfp|reflexivity].
  - intros Hnz Hge. pose proof (Hkeep Hnz Hge) as Heq.
    injection Heq as -> ->. split; reflexivity.
  - destruct (Qeq_dec (unitPrice edit) 0) as [Hz|Hnz].
    + destruct (Hzero Hz) as (fp & Heq & _). injection Heq as _ ->.
      repeat constructor. eexists; reflexivity.
    + destruct (Qlt_le_dec (unitPrice edit) ((94 # 100) * originalPrice edit))
        as [Hlt|Hge].
      * destruct (Hfloor Hnz Hlt) as (fp & Heq & _). injection Heq as _ ->.
        repeat constructor. eexists; reflexivity.
      * pose proof (Hkeep Hnz Hge) as Heq. injection Heq as _ ->. constructor.
Qed.

Lemma saveEditItem_price_rules_witness :
  saveEditItem (editPos 0 5) = (editPos 0 5, [])
  /\ exists (newItem : SaleItem) (notices : list Toast),
       saveEditItem (editPos 3 5)
       = (set_cart_closeEdit (<[0%nat := newItem]> (cart (editPos 3 5))) (editPos 3 5),
          notices)
       /\ cart (fst (saveEditItem (editPos 3 5))) !! 0%nat = Some newItem
       /\ quantity newItem = 3
       /\ total newItem == quantity newItem * unitPrice newItem
       /\ (5 == 0 ->
           unitPrice newItem == 10 /\ notices = [toast_info PriceReverted])
       /\ (~ 5 == 0 -> 5 < (94 # 100) * 10 ->
           unitPrice newItem == (94 # 100) * 10
           /\ notices = [toast_info PriceFloored])
       /\ (~ 5 == 0 -> (94 # 100) * 10 <= 5 ->
           unitPrice newItem = 5 /\ notices = [])
       /\ Forall (fun t => exists m : Message, t = toast_info m) notices.
Proof.
  split.
  - apply (saveEditItem_price_rules (editPos 0 5) 0%nat twoWidgets eq_refl eq_refl);
      [discriminate|discriminate|reflexivity].
  - apply (saveEditItem_price_rules (editPos 3 5) 0%nat twoWidgets eq_refl eq_refl);
      discriminate.
Defined.

(** A price of 5.00 on an article of 10.00 is raised to 9.40; an empty
    price field brings the 10.00 back. *)
Example saveEditItem_floor_scenario :
  exists item : SaleItem,
    cart (fst (saveEditItem (editPos 3 5))) = [item]
    /\ unitPrice item == (94 # 10) /\ total item == (282 # 10)
    /\ snd (saveEditItem (editPos 3 5)) = [toast_info PriceFloored].
Proof. eexists. repeat split; reflexivity. Qed.

Example saveEditItem_revert_scenario :
  exists item : SaleItem,
    cart (fst (saveEditItem (editPos 3 0))) = [item]
    /\ unitPrice item == 10 /\ total item == 30
    /\ snd (saveEditItem (editPos 3 0)) = [toast_info PriceReverted].
Proof. eexists. repeat split; reflexivity. Qed.

(** ** The three discount inputs *)

(** C9 as stated fails: with 5.00 of 100.00 already taken off by an item
    edit, typing 2 into the percentage field leaves the percentage at 2
    and the amount at 0, while the amount 0 stands for 5 per cent. *)
Lemma discount_percent_mode_counterexample :
  tempDiscountPercent (handleDiscountPercentChange 2 markedDownPos) = 2
  /\ tempDiscountValue (handleDiscountPercentChange 2 markedDownPos) == 0
  /\ spec_totalDiscountPct
       (totalOriginalValue (handleDiscountPercentChange 2 markedDownPos))
       (discountFromItems (handleDiscountPercentChange 2 markedDownPos))
       (tempDiscountValue (handleDiscountPercentChange 2 markedDownPos)) == 5
  /\ ~ tempDiscountPercent (handleDiscountPercentChange 2 markedDownPos)
       == spec_totalDiscountPct
            (totalOriginalValue (handleDiscountPercentChange 2 markedDownPos))
            (discountFromItems (handleDiscountPercentChange 2 markedDownPos))
            (tempDiscountValue (handleDiscountPercentChange 2 markedDownPos)).
Proof.
  split; [reflexivity|]. split; [reflexivity|]. split; [reflexivity|].
  intros H. vm_compute in H. discriminate.
Qed.

(** C9, amended.  Write [originalValue] for the sum over the cart of
    quantity times original price, the unit price standing in for an
    original price of zero, [discountFromItems] for the original value less
    the subtotal, and [pct amount] for
    [100 * (discountFromItems + amount) / originalValue], which is 0 when
    the original value is not positive.  After an edit of the discount
    amount or of the desired total, the percentage shown is [pct] of the
    amount shown, and the desired total [t] gives the amount
    [max 0 (subtotal - t)].  After an edit of the percentage to [p], the
    percentage shown is [p] and the amount is
    [max 0 (originalValue * p / 100 - discountFromItems)]; the two agree in
    the same way when the original value is positive and
    [originalValue * p / 100] is at least [discountFromItems].  No mode
    touches the cart. *)
Theorem discount_modes_consistent (st : Pos) :
  let ov := baselineValue (cart st) in
  let dfi := baselineValue (cart st) - cartSubtotal (cart st) in
  let pct := baselineDiscountPct (cart st) in
  (forall val : Q,
     tempDiscountValue (handleDiscountValueChange val st) = val
     /\ tempDiscountPercent (handleDiscountValueChange val st) == pct val)
  /\ (forall t : Q,
        tempDiscountValue (handleDiscountTotalChange t st)
        == Qmax 0 (cartSubtotal (cart st) - t)
        /\ tempDiscountPercent (handleDiscountTotalChange t st)
           == pct (tempDiscountValue (handleDiscountTotalChange t st)))
  /\ (forall p : Q,
        tempDiscountPercent (handleDiscountPercentChange p st) = p
        /\ tempDiscountValue (handleDiscountPercentChange p st)
           == Qmax 0 (ov * p / 100 - dfi)
        /\ (0 < ov -> dfi <= ov * p / 100 ->
            p == pct (tempDiscountValue (handleDiscountPercentChange p st))))
  /\ (forall x : Q,
        cart (handleDiscountValueChange x st) = cart st
        /\ cart (handleDiscountTotalChange x st) = cart st
        /\ cart (handleDiscountPercentChange x st) = cart st).
Proof.
  intros ov dfi pct.
  pose proof (totalOriginalValue_baseline st) as Hov. fold ov in Hov.
  pose proof (subTotal_cartSubtotal st) as Hsub.
  assert (Hamount : forall p : Q,
             tempDiscountValue (handleDiscountPercentChange p st)
             == Qmax 0 (ov * p / 100 - dfi)).
  { intros p. simpl. unfold discountFromItems, dfi. fold ov.
    apply Q.max_compat; [reflexivity|]. rewrite Hov, Hsub. reflexivity. }
  split; [|split; [|split]].
  - intros val. split; [reflexivity|]. simpl.
    apply effectivePercent_baseline.
  - intros t. split.
    + simpl. apply Q.max_compat; [reflexivity|]. rewrite Hsub. reflexivity.
    + simpl. apply effectivePercent_baseline.
  - intros p. split; [reflexivity|]. split; [apply Hamount|].
    intros Hpos Hge.
    assert (Hv : tempDiscountValue (handleDiscountPercentChange p st)
                 == ov * p / 100 - dfi).
    { rewrite Hamount. apply Q.max_r. lra. }
    unfold pct, baselineDiscountPct. fold ov.
    destruct (Qle_bool ov 0) eqn:E0.
    { apply Qle_bool_iff in E0. lra. }
    rewrite Hv. unfold dfi. fold ov. field. lra.
  - intros x. repeat split.
Qed.

Lemma discount_modes_consistent_witness :
  tempDiscountPercent (handleDiscountValueChange 2 markedDownPos) == 7
  /\ tempDiscountValue (handleDiscountTotalChange 90 markedDownPos) == 5
  /\ tempDiscountPercent (handleDiscountTotalChange 90 markedDownPos) == 10
  /\ 7 == baselineDiscountPct (cart markedDownPos)
            (tempDiscountValue (handleDiscountPercentChange 7 markedDownPos)).
Proof.
  pose proof (discount_modes_consistent markedDownPos) as (Hval & Htot & Hpct & _).
  split; [|split; [|split]].
  - rewrite (proj2 (Hval 2)). reflexivity.
  - rewrite (proj1 (Htot 90)). reflexivity.
  - rewrite (proj2 (Htot 90)). reflexivity.
  - apply (Hpct 7); [reflexivity|discriminate].
Defined.

(** ** The payment gate of submit and finalize *)

Lemma totalGeneral_nonneg (st : Pos) : 0 <= totalGeneral st.
Proof. unfold totalGeneral. apply Q.le_max_l. Qed.

Lemma sumPayments_nonneg (p : PaymentDetails) :
  (forall k : PaymentKey, 0 <= getPayment k p) -> 0 <= sumPayments p.
Proof.
  intros Hk. unfold sumPayments, paymentValues, paymentKeys. simpl.
  pose proof (Hk Kcash). pose proof (Hk Kdebit). pose proof (Hk Kcredit).
  pose proof (Hk Kticket). pose proof (Hk Kpix). pose proof (Hk Ktransfer).
  pose proof (Hk Kboleto). pose proof (Hk Kcheque). pose proof (Hk KcreditStore).
  simpl in *. lra.
Qed.

(** What the payment check of a submit answers. *)
Lemma submitPaymentCheck_refuses (st : Pos) :
  let G := totalGeneral st in
  let P := totalPaid st in
  ~ (G == 0 \/ (~ P == 0 /\ Qabs (P - G) <= 5 # 100)) ->
  (P == 0 /\ submitPaymentCheck st = Some (toast_error SelectPaymentMethod))
  \/ (~ P == 0 /\ 0 < G - P
      /\ submitPaymentCheck st = Some (toast_error (PaymentMismatch true (G - P))))
  \/ (~ P == 0 /\ G - P <= 0
      /\ submitPaymentCheck st
         = Some (toast_error (PaymentMismatch false (Qabs (G - P))))).
Proof.
  intros G P Hno. unfold submitPaymentCheck. fold (totalPaid st). fold G P.
  pose proof (totalGeneral_nonneg st) as HG. fold G in HG.
  assert (HG0 : 0 < G).
  { destruct (Qlt_le_dec 0 G) as [H|H]; [exact H|].
    exfalso. apply Hno. left. lra. }
  rewrite (proj2 (Qltb_lt 0 G) HG0).
  destruct (Qeq_bool P 0) eqn:EP.
  - left. apply Qeq_bool_iff in EP. split; [exact EP|reflexivity].
  - assert (HP : ~ P == 0).
    { intros H. apply Qeq_bool_iff in H. congruence. }
    assert (Habs : 5 # 100 < Qabs (P - G)).
    { destruct (Qlt_le_dec (5 # 100) (Qabs (P - G))) as [H|H]; [exact H|].
      exfalso. apply Hno. right. split; assumption. }
    rewrite (proj2 (Qltb_lt _ _) Habs).
    destruct (Qltb 0 (G - P)) eqn:Ed.
    + right; left. apply Qltb_lt in Ed. repeat split; assumption.
    + right; right. apply Qltb_ge in Ed. repeat split; assumption.
Qed.

(** C5 as stated fails for the cashier: a sale of 0.03 with nothing paid is
    within 0.05 of its total, so the cashier's finalize stores the payments
    and completes the sale, although the total is not zero and nothing was
    paid. *)
Lemma cashier_gate_counterexample :
  ~ (totalGeneral pennyPos == 0
     \/ (0 < totalPaid pennyPos
         /\ Qabs (totalPaid pennyPos - totalGeneral pennyPos) <= 5 # 100))
  /\ exists (pos' : Pos) (db' : Store) (done : Sale),
       handleCashierFinalize "2024-01-02" pennyPos pennyStore
       = (pos', db', [toast_success SaleFinalized])
       /\ sales db' !! "s1"%string = Some done
       /\ status done = COMPLETED.
Proof.
  split.
  - intros [H|[H _]]; vm_compute in H; discriminate.
  - do 3 eexists. split; [vm_compute; reflexivity|].
    split; reflexivity.
Qed.

(** C5, amended.  A submit that is not a budget writes nothing and fails
    unless the grand total is 0, or the amount paid is not 0 and within
    0.05 of the grand total: with a cart and a salesperson chosen, the
    failure asks for a payment method when nothing is paid, and otherwise
    is PaymentMismatch with the amount short or over.  The cashier's
    finalize writes nothing when the amount paid is further than 0.05 from
    the grand total, and then fails reporting the grand total minus the
    amount paid.  When no method holds a negative amount, an amount paid
    that is not 0 is a positive one. *)
Theorem payment_gate (st : Pos) (db : Store) (serverId now : string) :
  let G := totalGeneral st in
  let P := totalPaid st in
  (~ (G == 0 \/ (~ P == 0 /\ Qabs (P - G) <= 5 # 100)) ->
   exists m : Message,
     handleSubmitSale false serverId now st db = (st, db, [toast_error m])
     /\ (cart st <> [] -> selectedSellerId st <> EmptyString ->
         (P == 0 /\ m = SelectPaymentMethod)
         \/ (~ P == 0 /\ 0 < G - P /\ m = PaymentMismatch true (G - P))
         \/ (~ P == 0 /\ G - P <= 0 /\ m = PaymentMismatch false (Qabs (G - P)))))
  /\ (5 # 100 < Qabs (P - G) ->
      exists l : list Toast,
        handleCashierFinalize now st db = (st, db, l)
        /\ (editingId st <> None -> sessionUser st <> None ->
            l = [toast_error (CashierMismatch (G - P))]))
  /\ ((forall k : PaymentKey, 0 <= getPayment k (payments st)) ->
      (~ P == 0 <-> 0 < P)).
Proof.
  intros G P. split; [|split].
  - intros Hno. unfold handleSubmitSale.
    destruct (cart st) as [|item rest] eqn:Ecart.
    { simpl. eexists. split; [reflexivity|]. intros H. contradiction. }
    simpl length. simpl Nat.eqb. cbv iota.
    destruct (nonEmpty (selectedSellerId st)) eqn:Eseller; simpl negb; cbv iota.
    2:{ eexists. split; [reflexivity|]. intros _ H. exfalso. apply H.
        unfold nonEmpty in Eseller. apply negb_false_iff in Eseller.
        apply String.eqb_eq in Eseller. exact Eseller. }
    destruct (submitPaymentCheck_refuses st Hno)
      as [(HP & ->)|[(HP & Hd & ->)|(HP & Hd & ->)]];
      eexists; (split; [reflexivity|]); intros _ _.
    + left. split; [exact HP|reflexivity].
    + right; left. repeat split; assumption.
    + right; right. repeat split; assumption.
  - intros Habs. unfold handleCashierFinalize.
    destruct (editingId st) as [i|]; [|eexists; split; [reflexivity|congruence]].
    destruct (sessionUser st) as [u|]; [|eexists; split; [reflexivity|congruence]].
    fold (totalPaid st). fold G P.
    rewrite (proj2 (Qltb_lt _ _) Habs).
    eexists. split; reflexivity.
  - intros Hk. pose proof (sumPayments_nonneg (payments st) Hk) as HP.
    fold (totalPaid st) in HP. fold P in HP. split; intros H; lra.
Qed.

Lemma payment_gate_witness :
  (exists m : Message,
     handleSubmitSale false "s2" "2024-01-02"
                      (samplePos false [twoWidgets] 0 noPayments) pennyStore
     = (samplePos false [twoWidgets] 0 noPayments, pennyStore, [toast_error m]))
  /\ (exists l : list Toast,
        handleCashierFinalize "2024-01-02"
                              (samplePos true [twoWidgets] 0 noPayments) pennyStore
        = (samplePos true [twoWidgets] 0 noPayments, pennyStore, l)).
Proof.
  split.
  - destruct (payment_gate (samplePos false [twoWidgets] 0 noPayments) pennyStore
                "s2" "2024-01-02") as [H _].
    destruct H as (m & Hm & _).
    + intros [H|[H _]]; [vm_compute in H; discriminate|apply H; reflexivity].
    + exists m. exact Hm.
  - destruct (payment_gate (samplePos true [twoWidgets] 0 noPayments) pennyStore
                "s2" "2024-01-02") as [_ H].
    destruct H as [H _]. destruct H as (l & Hl & _); [reflexivity|].
    exists l. exact Hl.
Defined.

(** Two widgets paid with twenty in cash: the submit stores a pending sale
    under the identity the table assigns and clears the view. *)
Example handleSubmitSale_new_scenario :
  exists (pos' : Pos) (db' : Store) (s : Sale),
    handleSubmitSale false "s2" "2024-01-02" (newSalePos cashTwenty)
                     (sampleStore (sampleSale BUDGET [] 0 0))
    = (pos', db', [toast_success SaleRegistered])
    /\ cart pos' = []
    /\ sales db' !! "s2"%string = Some s
    /\ status s = PENDING /\ totalValue s == 20
    /\ clientName s = Some "CONSUMIDOR FINAL"%string.
Proof.
  do 3 eexists. split; [vm_compute; reflexivity|].
  repeat split; reflexivity.
Qed.

(** The same submit with nothing paid is refused with the notice that asks
    for a payment method, which carries no amount. *)
Example handleSubmitSale_nothing_paid :
  handleSubmitSale false "s2" "2024-01-02" (newSalePos noPayments)
                   (sampleStore (sampleSale BUDGET [] 0 0))
  = (newSalePos noPayments, sampleStore (sampleSale BUDGET [] 0 0),
     [toast_error SelectPaymentMethod]).
Proof. vm_compute. reflexivity. Qed.

(** The cashier finalizes the stored sale of two widgets paid with twenty
    in cash: three widgets are left and the sale is completed. *)
Example handleCashierFinalize_scenario :
  exists (pos' : Pos) (db' : Store) (s : Sale) (p : Product),
    handleCashierFinalize "2024-01-02" (samplePos true [twoWidgets] 0 cashTwenty)
                          (sampleStore (sampleSale PENDING [twoWidgets] 20 0))
    = (pos', db', [toast_success SaleFinalized])
    /\ activeTab pos' = TabPending
    /\ sales db' !! "s1"%string = Some s
    /\ status s = COMPLETED /\ finishedAt s = Some "2024-01-02"%string
    /\ sale_payments s = Some cashTwenty
    /\ products db' !! "p1"%string = Some p /\ stock p == 3.
Proof.
  do 4 eexists. split; [vm_compute; reflexivity|].
  repeat split; reflexivity.
Qed.

(** ** Money helpers *)

Example formatMoney_thousands : formatMoney (1234567 # 100) = "12.345,67"%string.
Proof. vm_compute. reflexivity. Qed.

Example formatMoney_cents : formatMoney (5 # 100) = "0,05"%string.
Proof. vm_compute. reflexivity. Qed.

Example formatMoney_half_cent : formatMoney (1005 # 1000) = "1,01"%string.
Proof. vm_compute. reflexivity. Qed.

Example parseMoney_thousands : parseMoney "12.345,67" == (1234567 # 100).
Proof. vm_compute. reflexivity. Qed.

Lemma digit_inv (d : N) :
  (d < 10)%N -> digitVal (digitChar d) = d /\ is_digit (digitChar d) = true.
Proof.
  intros H.
  assert (d = 0 \/ d = 1 \/ d = 2 \/ d = 3 \/ d = 4 \/ d = 5 \/ d = 6 \/ d = 7
          \/ d = 8 \/ d = 9)%N as Hd by lia.
  repeat (destruct Hd as [->|Hd]; [split; reflexivity|]).
  subst d. split; reflexivity.
Qed.

Lemma mod10_lt (n : N) : (n mod 10 < 10)%N.
Proof. apply N.mod_lt. discriminate. Qed.

Lemma append_nil (s : string) : (EmptyString +:+ s)%string = s.
Proof. reflexivity. Qed.

Lemma append_cons (c : ascii) (r s : string) :
  (String c r +:+ s)%string = String c (r +:+ s).
Proof. reflexivity. Qed.

Lemma append_assoc (s1 s2 s3 : string) :
  ((s1 +:+ s2) +:+ s3)%string = (s1 +:+ (s2 +:+ s3))%string.
Proof.
  induction s1 as [|c r IH]; [reflexivity|].
  rewrite !append_cons, IH. reflexivity.
Qed.

Lemma parseDigits_app (s1 s2 : string) : forall acc : N,
  parseDigits acc (s1 +:+ s2) = parseDigits (parseDigits acc s1) s2.
Proof.
  induction s1 as [|c r IH]; intros acc; [reflexivity|].
  rewrite append_cons. simpl. apply IH.
Qed.

Lemma digitsOnly_app (s1 s2 : string) :
  digitsOnly (s1 +:+ s2) = (digitsOnly s1 +:+ digitsOnly s2)%string.
Proof.
  induction s1 as [|c r IH]; [reflexivity|].
  rewrite append_cons. simpl.
  destruct (is_digit c); [rewrite append_cons|]; rewrite IH; reflexivity.
Qed.

Lemma toDigits_acc (fuel : nat) : forall (n : N) (acc : string),
  toDigits fuel n acc = (toDigits fuel n EmptyString +:+ acc)%string.
Proof.
  induction fuel as [|f IH]; intros n acc; simpl; [reflexivity|].
  destruct (n <? 10)%N; [reflexivity|].
  rewrite (IH _ (String _ acc)), (IH _ (String _ EmptyString)).
  rewrite append_assoc. reflexivity.
Qed.

(** Reading back the digits of [n], given fuel for all of them. *)
Lemma parseDigits_toDigits (fuel : nat) : forall n : N,
  (n < 10 ^ N.of_nat (S fuel))%N ->
  parseDigits 0 (toDigits fuel n EmptyString) = n.
Proof.
  induction fuel as [|f IH]; intros n Hn.
  - simpl. change (10 ^ N.of_nat 1)%N with 10%N in Hn.
    rewrite (proj1 (digit_inv _ (mod10_lt n))).
    rewrite N.mod_small by exact Hn. reflexivity.
  - cbn [toDigits]. destruct (n <? 10)%N eqn:E.
    + apply N.ltb_lt in E. simpl.
      rewrite (proj1 (digit_inv _ (mod10_lt n))).
      rewrite N.mod_small by exact E. reflexivity.
    + rewrite toDigits_acc, parseDigits_app. rewrite IH.
      * simpl. rewrite (proj1 (digit_inv _ (mod10_lt n))).
        pose proof (N.div_mod n 10 ltac:(discriminate)). lia.
      * apply N.Div0.div_lt_upper_bound.
        rewrite (Nat2N.inj_succ (S f)), N.pow_succ_r' in Hn. exact Hn.
Qed.

Lemma digitsOnly_toDigits (fuel : nat) : forall (n : N) (acc : string),
  digitsOnly (toDigits fuel n acc) = toDigits fuel n (digitsOnly acc).
Proof.
  induction fuel as [|f IH]; intros n acc; cbn [toDigits].
  - simpl. rewrite (proj2 (digit_inv _ (mod10_lt n))). reflexivity.
  - destruct (n <? 10)%N.
    + simpl. rewrite (proj2 (digit_inv _ (mod10_lt n))). reflexivity.
    + rewrite IH. simpl. rewrite (proj2 (digit_inv _ (mod10_lt n))). reflexivity.
Qed.

Lemma digitsOnly_group (s : string) : digitsOnly (group s) = digitsOnly s.
Proof.
  induction s as [|c r IH]; [reflexivity|].
  cbn [group digitsOnly].
  destruct ((String.length r mod 3 =? 0) && (0 <? String.length r))%nat;
    cbn [digitsOnly]; try change (is_digit ".") with false; cbv iota;
    rewrite IH; reflexivity.
Qed.

Lemma parseInt_decimal (n : N) : parseInt (decimal n) = n.
Proof.
  unfold parseInt, decimal. apply parseDigits_toDigits.
  rewrite Nat2N.inj_succ, N2Nat.id.
  pose proof (N.size_gt n) as Hs.
  assert (2 ^ N.size n <= 10 ^ N.size n)%N by (apply N.pow_le_mono_l; lia).
  assert (10 ^ N.size n <= 10 ^ N.succ (N.size n))%N
    by (apply N.pow_le_mono_r; lia).
  lia.
Qed.

Lemma digitsOnly_decimal (n : N) : digitsOnly (decimal n) = decimal n.
Proof. unfold decimal. rewrite digitsOnly_toDigits. reflexivity. Qed.

(** The digits [parseMoney] keeps of a formatted whole number of cents. *)
Lemma parseInt_formatted (cents : N) :
  let digits := digitsOnly (group (decimal (cents / 100)) +:+ ","
                            +:+ twoDigits (cents mod 100)) in
  nonEmpty digits = true /\ parseInt digits = cents.
Proof.
  intros digits. subst digits.
  assert (Hfr : (cents mod 100 < 100)%N) by (apply N.mod_lt; discriminate).
  assert (Hhi : (cents mod 100 / 10 < 10)%N)
    by (apply N.Div0.div_lt_upper_bound; exact Hfr).
  rewrite digitsOnly_app, digitsOnly_group, digitsOnly_decimal.
  unfold twoDigits. rewrite append_cons, append_nil.
  cbn [digitsOnly]. change (is_digit ",") with false. cbv iota.
  rewrite (proj2 (digit_inv _ Hhi)), (proj2 (digit_inv _ (mod10_lt _))).
  split.
  - destruct (decimal (cents / 100)); reflexivity.
  - unfold parseInt. rewrite parseDigits_app.
    fold (parseInt (decimal (cents / 100))). rewrite parseInt_decimal.
    cbn [parseDigits].
    rewrite (proj1 (digit_inv _ Hhi)), (proj1 (digit_inv _ (mod10_lt _))).
    pose proof (N.div_mod cents 100 ltac:(discriminate)).
    pose proof (N.div_mod (cents mod 100) 10 ltac:(discriminate)).
    lia.
Qed.

(** The cents [formatMoney] prints for a whole number of cents. *)
Lemma cents_of_exact (x : Q) (n : N) :
  x == inject_Z (Z.of_N n) / 100 ->
  Qltb x 0 = false /\ Z.to_N (Qfloor (Qabs x * 100 + (1 # 2))) = n.
Proof.
  intros Hx.
  assert (Hn : 0 <= inject_Z (Z.of_N n)).
  { change 0 with (inject_Z 0). rewrite <- Zle_Qle. lia. }
  assert (Hx0 : 0 <= x) by (rewrite Hx; apply Qle_shift_div_l; [reflexivity|lra]).
  split; [apply Qltb_ge; exact Hx0|].
  assert (Hval : Qabs x * 100 + (1 # 2) == inject_Z (Z.of_N n) + (1 # 2)).
  { rewrite (Qabs_pos x Hx0), Hx. field. }
  rewrite (Qfloor_comp _ _ Hval).
  assert (Qfloor (inject_Z (Z.of_N n) + (1 # 2)) = Z.of_N n) as ->.
  { unfold Qfloor, inject_Z, Qplus. simpl.
    rewrite Z.mul_1_r. change (Z.pos 2) with 2%Z.
    symmetry. apply (Z.div_unique _ 2 _ 1); lia. }
  apply N2Z.id.
Qed.



(** * Further properties of the service *)

(** ** The stock never goes below zero *)

Lemma stocks_nonneg_alter (ps : gmap string Product) (pid : string) (v : Q) :
  0 <= v -> stocks_nonneg ps -> stocks_nonneg (alter (set_stock v) pid ps).
Proof.
  intros Hv Hps pid' p Hl.
  destruct (decide (pid' = pid)) as [->|Hne].
  - rewrite lookup_alter_eq in Hl.
    destruct (ps !! pid) as [p0|]; simpl in Hl; [|discriminate].
    injection Hl as <-. exact Hv.
  - rewrite lookup_alter_ne in Hl by congruence. exact (Hps pid' p Hl).
Qed.

Lemma stockLoop_nonneg (l : list SaleItem) : forall st : Store,
  stocks_nonneg (products st) ->
  stocks_nonneg (products (snd (stockLoop l st))).
Proof.
  induction l as [|item rest IH]; intros st Hst; [exact Hst|].
  simpl. unfold bind, selectProduct. simpl.
  destruct (products st !! productId item) as [prod|]; [|exact Hst].
  destruct (Qltb (stock prod) (quantity item)) eqn:E; [exact Hst|].
  apply Qltb_ge in E. unfold updateProductStock. simpl.
  apply IH. simpl. apply stocks_nonneg_alter; [lra|exact Hst].
Qed.

(** X1.  Whatever [completeSale] does (it may return, or fail before, in
    or after the stock loop), a products table without a negative stock
    stays without one. *)
Theorem completeSale_keeps_stock_nonneg
    (st : Store) (saleId cashier cashierNm now : string) :
  stocks_nonneg (products st) ->
  stocks_nonneg (products (snd (completeSale saleId cashier cashierNm now st))).
Proof.
  intros Hst. unfold completeSale, bind, selectSale. simpl.
  destruct (sales st !! saleId) as [sale|] eqn:Hsale; [|exact Hst].
  destruct (status_eqb (status sale) COMPLETED); [exact Hst|].
  destruct (distributeDiscount sale) as [finalItems finalDiscount].
  pose proof (stockLoop_nonneg finalItems st Hst) as Hloop.
  pose proof (stockLoop_sales finalItems st) as Hs.
  destruct (stockLoop finalItems st) as [[e|[]] st1]; [exact Hloop|].
  simpl in Hloop, Hs. unfold updateSaleRow.
  destruct (sales st1 !! saleId); exact Hloop.
Qed.

Lemma sampleStore_stocks_nonneg (sale : Sale) :
  stocks_nonneg (products (sampleStore sale)).
Proof.
  intros pid p Hl. simpl in Hl.
  destruct (decide (pid = "p1"%string)) as [->|H1].
  - rewrite lookup_insert_eq in Hl. injection Hl as <-. discriminate.
  - rewrite lookup_insert_ne in Hl by congruence.
    destruct (decide (pid = "p2"%string)) as [->|H2].
    + rewrite lookup_insert_eq in Hl. injection Hl as <-. discriminate.
    + rewrite lookup_insert_ne in Hl by congruence.
      rewrite lookup_empty in Hl. discriminate.
Qed.

Lemma completeSale_keeps_stock_nonneg_witness :
  stocks_nonneg
    (products (snd (completeSale "s1" "u9" "Caixa" "2024-01-02" greedyStore))).
Proof.
  apply (completeSale_keeps_stock_nonneg greedyStore).
  apply sampleStore_stocks_nonneg.
Defined.

(** ** Completing, then cancelling *)

Lemma same_but_stock_trans (p q r : Product) :
  same_but_stock p q -> same_but_stock q r -> same_but_stock p r.
Proof. unfold same_but_stock. congruence. Qed.

Lemma stock_moved_trans (d1 d2 d : string -> Q) (a b c : gmap string Product) :
  stock_moved d1 a b -> stock_moved d2 b c ->
  (forall pid, d pid == d1 pid + d2 pid) ->
  stock_moved d a c.
Proof.
  intros Hab Hbc Hd pid. specialize (Hab pid). specialize (Hbc pid).
  destruct (a !! pid) as [p|].
  - destruct Hab as (q & Hq & Hpq & Hsq). rewrite Hq in Hbc.
    destruct Hbc as (r & Hr & Hqr & Hsr). exists r. split; [exact Hr|]. split.
    + exact (same_but_stock_trans _ _ _ Hpq Hqr).
    + rewrite Hsr, Hsq, Hd. ring.
  - rewrite Hab in Hbc. exact Hbc.
Qed.

(** What [cancelSale] does with a stored sale. *)
Lemma cancelSale_run (st : Store) (saleId : string) (sale : Sale) :
  sales st !! saleId = Some sale ->
  exists ps' : gmap string Product,
    cancelSale saleId st
    = (inr (set_status CANCELLED sale),
       mkStore ps' (<[saleId := set_status CANCELLED sale]> (sales st)))
    /\ (status sale = COMPLETED ->
        stock_moved (fun pid => quantityOf pid (items sale)) (products st) ps')
    /\ (status sale <> COMPLETED -> ps' = products st).
Proof.
  intros Hsale. unfold cancelSale, bind, selectSale. simpl. rewrite Hsale.
  destruct (status_eqb (status sale) COMPLETED) eqn:E.
  - apply status_eqb_eq in E.
    destruct (restoreLoop_spec (items sale) st) as (ps' & Hrun & Hm).
    exists ps'. rewrite Hrun. unfold updateSaleRow. simpl. rewrite Hsale.
    repeat split; [intros _; exact Hm | intros Hne; contradiction].
  - exists (products st). unfold ret, updateSaleRow. simpl. rewrite Hsale.
    repeat split.
    intros Hc. apply status_eqb_eq in Hc. congruence.
Qed.

(** The redistribution keeps the product and the quantity of every item. *)
Lemma quantityOf_scale (f : Q) (pid : string) (l : list SaleItem) :
  quantityOf pid (map (scaleItem f) l) = quantityOf pid l.
Proof.
  unfold quantityOf. induction l as [|item rest IH]; [reflexivity|].
  simpl. rewrite IH. reflexivity.
Qed.

Lemma quantityOf_distribute (pid : string) (sale : Sale) :
  quantityOf pid (fst (distributeDiscount sale)) = quantityOf pid (items sale).
Proof.
  unfold distributeDiscount.
  destruct (Qltb 0 (discount sale)); [|reflexivity].
  destruct (Qltb 0 (itemsSubTotal (items sale))); [|reflexivity].
  simpl. apply quantityOf_scale.
Qed.

(** X2.  When [completeSale] has returned, [cancelSale] on the same sale
    returns it Cancelled and gives every product the stock it had before
    the completion; no product row appears or disappears. *)
Theorem cancelSale_undoes_completeSale
    (st st' : Store) (saleId cashier cashierNm now : string) (done : Sale) :
  completeSale saleId cashier cashierNm now st = (inr done, st') ->
  exists st'' : Store,
    cancelSale saleId st' = (inr (set_status CANCELLED done), st'')
    /\ sales st'' !! saleId = Some (set_status CANCELLED done)
    /\ stock_moved (fun _ => 0) (products st) (products st'').
Proof.
  intros Hrun.
  destruct (sales st !! saleId) as [sale|] eqn:Hsale.
  2:{ rewrite (completeSale_absent _ _ _ _ _ Hsale) in Hrun. discriminate. }
  assert (status sale = COMPLETED \/ status sale <> COMPLETED) as [Hc|Hc]
    by (destruct (status sale); (left; reflexivity) || (right; discriminate)).
  { rewrite (completeSale_completed _ _ _ _ _ _ Hsale Hc) in Hrun. discriminate. }
  rewrite (completeSale_run _ _ _ _ _ _ Hsale Hc) in Hrun. simpl in Hrun.
  destruct (stockLoop (fst (distributeDiscount sale)) st) as [[e|[]] st1] eqn:Hloop;
    [discriminate|].
  injection Hrun as <- <-.
  destruct (stockLoop_ok_spec _ _ _ Hloop) as [_ Hdown].
  set (done := finalizeRow cashier cashierNm now (fst (distributeDiscount sale))
                           (snd (distributeDiscount sale)) sale).
  destruct (cancelSale_run
              (mkStore (products st1) (<[saleId := done]> (sales st))) saleId done)
    as (ps' & Hcancel & Hup & _).
  { simpl. apply lookup_insert_eq. }
  eexists. split; [exact Hcancel|]. split.
  { simpl. apply lookup_insert_eq. }
  simpl. eapply stock_moved_trans; [exact Hdown|exact (Hup eq_refl)|].
  intros pid. simpl. rewrite quantityOf_distribute. ring.
Qed.

Lemma cancelSale_undoes_completeSale_witness :
  exists st'' : Store,
    cancelSale "s1" (snd (completeSale "s1" "u9" "Caixa" "2024-01-02" discountedStore))
    = (inr (set_status CANCELLED
              (finalizeRow "u9" "Caixa" "2024-01-02"
                 (fst (distributeDiscount (sampleSale PENDING [twoWidgets] 18 2)))
                 0 (sampleSale PENDING [twoWidgets] 18 2))), st'')
    /\ sales st'' !! "s1"%string
       = Some (set_status CANCELLED
                 (finalizeRow "u9" "Caixa" "2024-01-02"
                    (fst (distributeDiscount (sampleSale PENDING [twoWidgets] 18 2)))
                    0 (sampleSale PENDING [twoWidgets] 18 2)))
    /\ stock_moved (fun _ => 0) (products discountedStore) (products st'').
Proof.
  apply (cancelSale_undoes_completeSale discountedStore _ "s1" "u9" "Caixa"
           "2024-01-02"). vm_compute. reflexivity.
Defined.

(** X7.  Cancelling twice is cancelling once: when [cancelSale] has
    returned, a second call returns the same sale and leaves the store as
    the first call left it, so no stock is given back twice. *)
Theorem cancelSale_twice (st st' : Store) (saleId : string) (s : Sale) :
  cancelSale saleId st = (inr s, st') ->
  cancelSale saleId st' = (inr s, st').
Proof.
  intros Hrun.
  destruct (sales st !! saleId) as [sale|] eqn:Hsale.
  2:{ unfold cancelSale, bind, selectSale in Hrun. simpl in Hrun.
      rewrite Hsale in Hrun. discriminate. }
  destruct (cancelSale_run st saleId sale Hsale) as (ps' & Hfirst & _).
  rewrite Hfirst in Hrun. injection Hrun as <- <-.
  destruct (cancelSale_run
              (mkStore ps' (<[saleId := set_status CANCELLED sale]> (sales st)))
              saleId (set_status CANCELLED sale))
    as (ps'' & Hsecond & _ & Hsame).
  { simpl. apply lookup_insert_eq. }
  rewrite Hsecond. simpl in *. rewrite (Hsame ltac:(discriminate)).
  rewrite insert_insert_eq. reflexivity.
Qed.

Lemma cancelSale_twice_witness :
  cancelSale "s1" (snd (cancelSale "s1" completedStore))
  = (inr (set_status CANCELLED completedSale), snd (cancelSale "s1" completedStore)).
Proof.
  apply (cancelSale_twice completedStore). vm_compute. reflexivity.
Defined.

(** ** What the redistribution keeps *)

Lemma itemsSubTotal_scale (f : Q) (l : list SaleItem) :
  Forall line_ok l ->
  itemsSubTotal (map (scaleItem f) l) == f * itemsSubTotal l.
Proof.
  unfold itemsSubTotal. induction l as [|item rest IH]; intros Hall.
  - simpl. ring.
  - inversion Hall as [|? ? Hitem Hrest]; subst.
    simpl map. rewrite !fold_sum_cons, (IH Hrest). simpl.
    unfold line_ok in Hitem. rewrite Hitem. ring.
Qed.

Lemma line_ok_scale (f : Q) (l : list SaleItem) :
  Forall line_ok (map (scaleItem f) l).
Proof.
  induction l as [|item rest IH]; constructor; [|exact IH].
  unfold line_ok. simpl. ring.
Qed.

(** X3.  On items whose totals are quantity times unit price, step 2 of
    [completeSale] moves the discount into the items without changing what
    is charged: the subtotal of the final items minus the final discount is
    the subtotal of the stored items minus the stored discount, and the
    final items again have totals of quantity times unit price. *)
Theorem distributeDiscount_keeps_amount (sale : Sale) :
  Forall line_ok (items sale) ->
  itemsSubTotal (fst (distributeDiscount sale)) - snd (distributeDiscount sale)
  == itemsSubTotal (items sale) - discount sale
  /\ Forall line_ok (fst (distributeDiscount sale))
  /\ length (fst (distributeDiscount sale)) = length (items sale).
Proof.
  intros Hall. unfold distributeDiscount.
  destruct (Qltb 0 (discount sale)) eqn:ED;
    [|split; [reflexivity|split; [exact Hall|reflexivity]]].
  destruct (Qltb 0 (itemsSubTotal (items sale))) eqn:ES;
    [|split; [reflexivity|split; [exact Hall|reflexivity]]].
  apply Qltb_lt in ES. simpl. split; [|split].
  - rewrite (itemsSubTotal_scale _ _ Hall). field. lra.
  - apply line_ok_scale.
  - apply length_map.
Qed.

Lemma distributeDiscount_keeps_amount_witness :
  itemsSubTotal (fst (distributeDiscount (sampleSale PENDING [twoWidgets; threeGadgets] 27 5)))
  - snd (distributeDiscount (sampleSale PENDING [twoWidgets; threeGadgets] 27 5))
  == 32 - 5.
Proof.
  apply (distributeDiscount_keeps_amount
           (sampleSale PENDING [twoWidgets; threeGadgets] 27 5)).
  repeat constructor; reflexivity.
Defined.

(** ** What [completeSale] leaves alone *)

Lemma stockLoop_frame (pid : string) (l : list SaleItem) : forall st : Store,
  Forall (fun item => productId item <> pid) l ->
  products (snd (stockLoop l st)) !! pid = products st !! pid.
Proof.
  induction l as [|item rest IH]; intros st Hall; [reflexivity|].
  inversion Hall as [|? ? Hitem Hrest]; subst.
  simpl. unfold bind, selectProduct. simpl.
  destruct (products st !! productId item) as [prod|]; [|reflexivity].
  destruct (Qltb (stock prod) (quantity item)); [reflexivity|].
  unfold updateProductStock. simpl. rewrite (IH _ Hrest). simpl.
  apply lookup_alter_ne. exact Hitem.
Qed.

Lemma distributeDiscount_products (pid : string) (sale : Sale) :
  Forall (fun item => productId item <> pid) (items sale) ->
  Forall (fun item => productId item <> pid) (fst (distributeDiscount sale)).
Proof.
  intros Hall. unfold distributeDiscount.
  destruct (Qltb 0 (discount sale)); [|exact Hall].
  destruct (Qltb 0 (itemsSubTotal (items sale))); [|exact Hall].
  simpl. apply Forall_map. eapply Forall_impl; [exact Hall|].
  intros item H. exact H.
Qed.

(** X4.  [completeSale] writes no sale but the one it is called for, and no
    product but those the sale's items name; this holds when it returns and
    when it fails.  The sale it returns keeps its identity, seller, total
    value, creation time, freight, other costs, payments and salesperson. *)
Theorem completeSale_frame
    (st : Store) (saleId cashier cashierNm now : string) :
  (forall other : string, other <> saleId ->
     sales (snd (completeSale saleId cashier cashierNm now st)) !! other
     = sales st !! other)
  /\ (forall (sale : Sale) (pid : string),
        sales st !! saleId = Some sale ->
        Forall (fun item => productId item <> pid) (items sale) ->
        products (snd (completeSale saleId cashier cashierNm now st)) !! pid
        = products st !! pid)
  /\ (forall (sale done : Sale) (st' : Store),
        sales st !! saleId = Some sale ->
        completeSale saleId cashier cashierNm now st = (inr done, st') ->
        sale_id done = sale_id sale /\ sellerId done = sellerId sale
        /\ totalValue done = totalValue sale /\ createdAt done = createdAt sale
        /\ freight done = freight sale /\ otherCosts done = otherCosts sale
        /\ sale_payments done = sale_payments sale
        /\ salespersonId done = salespersonId sale
        /\ cashierId done = Some cashier /\ finishedAt done = Some now).
Proof.
  assert (Hcases : forall sale, sales st !! saleId = Some sale ->
            completeSale saleId cashier cashierNm now st = (inl AlreadyCompleted, st)
            \/ (exists e st1, stockLoop (fst (distributeDiscount sale)) st = (inl e, st1)
                  /\ completeSale saleId cashier cashierNm now st = (inl e, st1))
            \/ (exists st1, stockLoop (fst (distributeDiscount sale)) st = (inr tt, st1)
                  /\ completeSale saleId cashier cashierNm now st
                     = (inr (finalizeRow cashier cashierNm now
                               (fst (distributeDiscount sale))
                               (snd (distributeDiscount sale)) sale),
                        mkStore (products st1)
                          (<[saleId := finalizeRow cashier cashierNm now
                               (fst (distributeDiscount sale))
                               (snd (distributeDiscount sale)) sale]> (sales st))))).
  { intros sale Hsale.
    assert (status sale = COMPLETED \/ status sale <> COMPLETED) as [Hc|Hc]
      by (destruct (status sale); (left; reflexivity) || (right; discriminate)).
    - left. exact (completeSale_completed _ _ _ _ _ _ Hsale Hc).
    - right. rewrite (completeSale_run _ _ _ _ _ _ Hsale Hc). simpl.
      destruct (stockLoop (fst (distributeDiscount sale)) st) as [[e|[]] st1].
      + left. eauto.
      + right. eauto. }
  split; [|split].
  - intros other Hne.
    destruct (sales st !! saleId) as [sale|] eqn:Hsale.
    2:{ rewrite (completeSale_absent _ _ _ _ _ Hsale). reflexivity. }
    destruct (Hcases sale eq_refl) as [->|[(e & st1 & Hloop & ->)|(st1 & Hloop & ->)]].
    + reflexivity.
    + simpl. pose proof (stockLoop_sales (fst (distributeDiscount sale)) st) as Hs.
      rewrite Hloop in Hs. simpl in Hs. rewrite Hs. reflexivity.
    + simpl. apply lookup_insert_ne. congruence.
  - intros sale pid Hsale Hall.
    pose proof (stockLoop_frame pid _ st (distributeDiscount_products pid sale Hall))
      as Hframe.
    destruct (Hcases sale Hsale) as [->|[(e & st1 & Hloop & ->)|(st1 & Hloop & ->)]].
    + reflexivity.
    + rewrite Hloop in Hframe. exact Hframe.
    + rewrite Hloop in Hframe. exact Hframe.
  - intros sale done st' Hsale Hrun.
    destruct (Hcases sale Hsale) as [H|[(e & st1 & _ & H)|(st1 & _ & H)]];
      rewrite H in Hrun; try discriminate.
    injection Hrun as <- <-. repeat split.
Qed.

Lemma completeSale_frame_witness :
  products (snd (completeSale "s1" "u9" "Caixa" "2024-01-02" discountedStore))
    !! "p2"%string
  = products discountedStore !! "p2"%string.
Proof.
  apply (proj1 (proj2 (completeSale_frame discountedStore "s1" "u9" "Caixa"
                         "2024-01-02"))
           (sampleSale PENDING [twoWidgets] 18 2)); [reflexivity|].
  repeat constructor. discriminate.
Defined.

(** * Further properties of the sales view *)

(** ** Payments *)

Lemma totalGeneral_set_payments (p : PaymentDetails) (st : Pos) :
  totalGeneral (set_payments p st) = totalGeneral st.
Proof. reflexivity. Qed.

Lemma totalPaid_set_payments (p : PaymentDetails) (st : Pos) :
  totalPaid (set_payments p st) = sumPayments p.
Proof. reflexivity. Qed.

Lemma payments_set_payments (p : PaymentDetails) (st : Pos) :
  payments (set_payments p st) = p.
Proof. reflexivity. Qed.



(** X9.  With no more paid than the grand total, the Enter key on a
    payment field is carried out and puts the rest of the balance on that
    method: afterwards the amount paid is the grand total, nothing
    remains, the other methods are as before, and the payment check of a
    submit lets the sale through. *)
Theorem handlePaymentKeyDown_fills_balance (st : Pos) (key : PaymentKey) :
  totalPaid st <= totalGeneral st ->
  handlePaymentKeyDown key st
  = (set_payments (setPayment key (getPayment key (payments st) + remaining st)
                              (payments st)) st, [])
  /\ totalPaid (fst (handlePaymentKeyDown key st)) == totalGeneral st
  /\ remaining (fst (handlePaymentKeyDown key st)) == 0
  /\ othersPaid key (payments (fst (handlePaymentKeyDown key st)))
     = othersPaid key (payments st)
  /\ submitPaymentCheck (fst (handlePaymentKeyDown key st)) = None.
Proof.
  intros Hle.
  pose proof (sumPayments_split key (payments st)) as Hsplit.
  assert (Hrem : remaining st == totalGeneral st - totalPaid st).
  { unfold remaining. apply Q.max_r. lra. }
  unfold totalPaid in Hle, Hrem.
  set (v := getPayment key (payments st) + remaining st) in *.
  pose proof (sumPayments_set key v (payments st)) as Hset.
  assert (Hsum : sumPayments (setPayment key v (payments st)) == totalGeneral st).
  { rewrite Hset. unfold v. rewrite Hrem. lra. }
  assert (Hrun : handlePaymentKeyDown key st
                 = (set_payments (setPayment key v (payments st)) st, [])).
  { unfold handlePaymentKeyDown, handlePaymentChange. fold v.
    assert (Qltb (totalGeneral st
                  - (sumPayments (payments st) - getPayment key (payments st))
                  + (1 # 1000)) v = false) as ->; [|reflexivity].
    apply Qltb_ge. unfold v. rewrite Hrem. lra. }
  rewrite Hrun. cbn [fst]. split; [reflexivity|].
  rewrite totalPaid_set_payments. split; [exact Hsum|]. split; [|split].
  - unfold remaining. rewrite totalGeneral_set_payments, totalPaid_set_payments.
    apply Q.max_l. lra.
  - rewrite payments_set_payments. apply othersPaid_set.
  - unfold submitPaymentCheck.
    rewrite totalGeneral_set_payments, payments_set_payments.
    destruct (Qltb 0 (totalGeneral st)) eqn:EG; [|reflexivity].
    apply Qltb_lt in EG.
    destruct (Qeq_bool (sumPayments (setPayment key v (payments st))) 0) eqn:E0.
    { apply Qeq_bool_iff in E0. lra. }
    assert (Qltb (5 # 100)
              (Qabs (sumPayments (setPayment key v (payments st)) - totalGeneral st))
            = false) as ->; [|reflexivity].
    apply Qltb_ge.
    assert (Hz : sumPayments (setPayment key v (payments st)) - totalGeneral st == 0)
      by lra.
    rewrite Hz. discriminate.
Qed.

Lemma handlePaymentKeyDown_fills_balance_witness :
  remaining (fst (handlePaymentKeyDown Kpix
                    (samplePos false [twoWidgets; threeGadgets] 0 cashTwenty))) == 0.
Proof.
  apply (handlePaymentKeyDown_fills_balance
           (samplePos false [twoWidgets; threeGadgets] 0 cashTwenty) Kpix).
  discriminate.
Defined.

(** ** Adding and removing rows *)

Lemma subTotal_set_cart (c : list SaleItem) (st : Pos) :
  subTotal (set_cart c st) = fold_left (fun acc item => acc + total item) c 0.
Proof. reflexivity. Qed.

Lemma currentInCart_app (pid : string) (c1 c2 : list SaleItem) :
  currentInCart pid (c1 ++ c2) == currentInCart pid c1 + currentInCart pid c2.
Proof.
  unfold currentInCart. rewrite List.filter_app. apply fold_sum_app.
Qed.

(** X10.  With a product selected outside the cashier's confirmation,
    [handleAddItem] refuses, changing nothing, when the product's stock is
    below the quantity the cart already holds of it plus the quantity
    asked; otherwise it puts one row at the end of the cart, for that
    product, with the quantity and price of the form, the catalog price as
    original price and the total price times quantity.  After an add the
    cart never holds more of the product than its stock, and the subtotal
    has grown by price times quantity. *)
Theorem handleAddItem_stock_guard
    (localId : string) (form : AddForm) (st : Pos) (p : Product) :
  isCashierConfirming st = false ->
  selectedProduct st = Some p ->
  (stock p < currentInCart (prod_id p) (cart st) + itemQty form ->
   handleAddItem localId form st = (st, form, [CartStockShort (stock p)]))
  /\ (currentInCart (prod_id p) (cart st) + itemQty form <= stock p ->
      exists (item : SaleItem) (st' : Pos),
        handleAddItem localId form st = (st', mkAddForm 1 0, [])
        /\ cart st' = cart st ++ [item]
        /\ selectedProduct st' = None
        /\ productId item = prod_id p
        /\ quantity item = itemQty form
        /\ unitPrice item = itemPrice form
        /\ originalPrice item = price p
        /\ total item = itemPrice form * itemQty form
        /\ currentInCart (prod_id p) (cart st') <= stock p
        /\ subTotal st' == subTotal st + itemPrice form * itemQty form).
Proof.
  intros Hconf Hsel. unfold handleAddItem. rewrite Hconf, Hsel. split.
  - intros Hlt. apply Qltb_lt in Hlt. rewrite Hlt. reflexivity.
  - intros Hle. pose proof Hle as Hle'. apply Qltb_ge in Hle. rewrite Hle.
    do 2 eexists. split; [reflexivity|]. cbn [cart set_selection set_cart].
    repeat (split; [reflexivity|]). split.
    + rewrite currentInCart_app. unfold currentInCart at 2. simpl.
      rewrite String.eqb_refl. simpl. lra.
    + unfold subTotal. cbn [cart set_selection set_cart].
      rewrite fold_sum_app. simpl. ring.
Qed.

Lemma handleAddItem_stock_guard_witness :
  handleAddItem "r2" (mkAddForm 4 10)
    (set_selection "Widget" (Some widget) (samplePos false [twoWidgets] 0 noPayments))
  = (set_selection "Widget" (Some widget) (samplePos false [twoWidgets] 0 noPayments),
     mkAddForm 4 10, [CartStockShort 5]).
Proof.
  apply (handleAddItem_stock_guard "r2" (mkAddForm 4 10)
           (set_selection "Widget" (Some widget)
              (samplePos false [twoWidgets] 0 noPayments)) widget);
    reflexivity.
Defined.

Lemma dropIndex_past (idx : nat) (l : list SaleItem) : forall i : nat,
  (idx < i)%nat -> dropIndex idx i l = l.
Proof.
  induction l as [|item rest IH]; intros i Hi; [reflexivity|].
  simpl. destruct (Nat.eqb_spec i idx) as [E|_]; [lia|].
  f_equal. apply IH. lia.
Qed.

Lemma dropIndex_spec (l : list SaleItem) : forall idx i : nat,
  (i <= idx)%nat ->
  dropIndex idx i l = take (idx - i) l ++ drop (S (idx - i)) l.
Proof.
  induction l as [|item rest IH]; intros idx i Hle.
  - rewrite take_nil, drop_nil. reflexivity.
  - simpl dropIndex. destruct (Nat.eqb_spec i idx) as [->|Hne].
    + rewrite Nat.sub_diag. simpl. rewrite drop_0.
      apply dropIndex_past. lia.
    + replace (idx - i)%nat with (S (idx - S i))%nat by lia.
      simpl. f_equal. apply IH. lia.
Qed.

(** X11.  [handleRemoveItem] takes exactly the row at the index out of the
    cart, keeping the others in order: the cart is one row shorter and the
    subtotal is lower by that row's total.  With an index past the last
    row the cart is unchanged. *)
Theorem handleRemoveItem_removes_row (st : Pos) (idx : nat) :
  (forall item : SaleItem,
     cart st !! idx = Some item ->
     cart (handleRemoveItem idx st) = take idx (cart st) ++ drop (S idx) (cart st)
     /\ S (length (cart (handleRemoveItem idx st))) = length (cart st)
     /\ subTotal (handleRemoveItem idx st) == subTotal st - total item)
  /\ ((length (cart st) <= idx)%nat ->
      cart (handleRemoveItem idx st) = cart st).
Proof.
  assert (Hcart : cart (handleRemoveItem idx st)
                  = take idx (cart st) ++ drop (S idx) (cart st)).
  { unfold handleRemoveItem. cbn [cart set_cart].
    rewrite dropIndex_spec by lia. rewrite Nat.sub_0_r. reflexivity. }
  split.
  - intros item Hitem. split; [exact Hcart|].
    pose proof (take_drop_middle (cart st) idx item Hitem) as Hmid.
    split.
    + rewrite Hcart. rewrite <- Hmid at 3. rewrite !length_app. simpl. lia.
    + unfold subTotal. rewrite Hcart. rewrite <- Hmid at 3.
      rewrite !fold_sum_app, fold_sum_cons. ring.
  - intros Hge. rewrite Hcart.
    rewrite take_ge by exact Hge. rewrite drop_ge by lia. apply app_nil_r.
Qed.

Lemma handleRemoveItem_removes_row_witness :
  cart (handleRemoveItem 0 (samplePos false [twoWidgets; threeGadgets] 0 noPayments))
  = take 0 [twoWidgets; threeGadgets] ++ drop 1 [twoWidgets; threeGadgets]
  /\ S (length (cart (handleRemoveItem 0
                        (samplePos false [twoWidgets; threeGadgets] 0 noPayments))))
     = 2%nat
  /\ subTotal (handleRemoveItem 0
                 (samplePos false [twoWidgets; threeGadgets] 0 noPayments))
     == subTotal (samplePos false [twoWidgets; threeGadgets] 0 noPayments) - 20.
Proof.
  apply (proj1 (handleRemoveItem_removes_row
                  (samplePos false [twoWidgets; threeGadgets] 0 noPayments) 0%nat)
           twoWidgets).
  reflexivity.
Defined.

(** ** The line total *)

Lemma saveEditItem_cart_cases (st : Pos) :
  cart (fst (saveEditItem st)) = cart st
  \/ (exists (i : nat) (old : SaleItem),
        editItemIndex st = Some i /\ cart st !! i = Some old
        /\ truthy (quantity (editItemData st)) = true
        /\ saveEditItem st
           = (set_cart_closeEdit
                (<[i := mergeItem old (editItemData st)
                          (fst (editedPrice (editItemData st)))
                          (num_or (quantity (editItemData st)) 0
                           * num_or (fst (editedPrice (editItemData st))) 0)]>
                   (cart st)) st,
              snd (editedPrice (editItemData st))))
  \/ (exists (i : nat) (new : SaleItem),
        editItemIndex st = Some i /\ cart st !! i = None
        /\ truthy (quantity (editItemData st)) = true
        /\ quantity new = quantity (editItemData st)
        /\ unitPrice new = fst (editedPrice (editItemData st))
        /\ total new = num_or (quantity (editItemData st)) 0
                       * num_or (fst (editedPrice (editItemData st))) 0
        /\ saveEditItem st
           = (set_cart_closeEdit (cart st ++ [new]) st,
              snd (editedPrice (editItemData st)))).
Proof.
  unfold saveEditItem.
  destruct (editItemIndex st) as [i|]; [|left; reflexivity].
  destruct (truthy (quantity (editItemData st))) eqn:Eq; [|left; reflexivity].
  destruct (editedPrice (editItemData st)) as [fp notices].
  destruct (cart st !! i) as [old|] eqn:Hold.
  - right; left. exists i, old.
    rewrite (storeRow_in_range _ _ _ _ Hold). repeat split. exact Hold.
  - right; right. exists i. eexists.
    rewrite (storeRow_at_end _ _ _ Hold).
    split; [reflexivity|]. split; [exact Hold|]. split; [reflexivity|].
    split; [|split; [|split]]; [| | |reflexivity]; reflexivity.
Qed.

(** X12.  The handlers that change the cart keep every line total equal to
    quantity times unit price: if that holds of the cart, it holds after
    [handleAddItem] and after [handleRemoveItem], whatever they were given,
    and after [saveEditItem] when the index of the edit window, if there is
    one, is a row of the cart or the position just after the last row. *)
Theorem cart_handlers_keep_line_totals (st : Pos) :
  Forall line_ok (cart st) ->
  (forall (localId : string) (form : AddForm),
     Forall line_ok (cart (fst (fst (handleAddItem localId form st)))))
  /\ (forall idx : nat, Forall line_ok (cart (handleRemoveItem idx st)))
  /\ ((forall i : nat, editItemIndex st = Some i -> (i <= length (cart st))%nat) ->
      Forall line_ok (cart (fst (saveEditItem st)))).
Proof.
  intros Hall. split; [|split].
  - intros localId form. unfold handleAddItem.
    destruct (isCashierConfirming st); [exact Hall|].
    destruct (selectedProduct st) as [p|]; [|exact Hall].
    destruct (Qltb _ _); [exact Hall|].
    cbn [fst cart set_selection set_cart].
    apply Forall_app. split; [exact Hall|].
    repeat constructor. unfold line_ok. simpl. ring.
  - intros idx. unfold handleRemoveItem. cbn [cart set_cart].
    rewrite dropIndex_spec by lia.
    apply Forall_app. split; [apply Forall_take|apply Forall_drop]; exact Hall.
  - intros _.
    destruct (saveEditItem_cart_cases st)
      as [->|[(i & old & _ & _ & Hq & ->)
             |(i & new & _ & _ & Hq & Hqty & Hprice & Htot & ->)]];
      [exact Hall| |].
    + cbn [fst cart set_cart_closeEdit].
      apply Forall_insert; [exact Hall|].
      unfold line_ok. cbn [total quantity unitPrice mergeItem].
      rewrite !num_or_zero_r. reflexivity.
    + cbn [fst cart set_cart_closeEdit].
      apply Forall_app. split; [exact Hall|].
      repeat constructor. unfold line_ok.
      rewrite Htot, Hqty, Hprice, !num_or_zero_r. reflexivity.
Qed.

Lemma cart_handlers_keep_line_totals_witness :
  Forall line_ok (cart (fst (saveEditItem (editPos 3 5))))
  /\ Forall line_ok (cart (fst (saveEditItem (set_cart [] (editPos 3 5)))))
  /\ length (cart (fst (saveEditItem (set_cart [] (editPos 3 5))))) = 1%nat.
Proof.
  split; [|split].
  - apply (cart_handlers_keep_line_totals (editPos 3 5)).
    + repeat constructor.
    + intros i Hi. injection Hi as <-. simpl. lia.
  - apply (cart_handlers_keep_line_totals (set_cart [] (editPos 3 5))).
    + constructor.
    + intros i Hi. injection Hi as <-. simpl. lia.
  - reflexivity.
Defined.

(** ** The edit window *)

(** X13.  [saveEditItem] on the window of a cart row, with prices that are
    not negative, changes no other row and not the number of rows; when
    the submitted quantity is not zero, the row keeps its product and ends
    with a unit price that is not below 0.94 times its original price;
    when the quantity is zero, the whole state stays as it was. *)
Theorem saveEditItem_only_that_row (st : Pos) (i : nat) (old : SaleItem) :
  editItemIndex st = Some i ->
  cart st !! i = Some old ->
  0 <= unitPrice (editItemData st) ->
  0 <= originalPrice (editItemData st) ->
  length (cart (fst (saveEditItem st))) = length (cart st)
  /\ (forall j : nat, j <> i ->
        cart (fst (saveEditItem st)) !! j = cart st !! j)
  /\ (~ quantity (editItemData st) == 0 ->
      exists new : SaleItem,
        cart (fst (saveEditItem st)) !! i = Some new
        /\ productId new = productId (editItemData st)
        /\ originalPrice new = originalPrice (editItemData st)
        /\ (94 # 100) * originalPrice new <= unitPrice new)
  /\ (quantity (editItemData st) == 0 -> saveEditItem st = (st, [])).
Proof.
  intros Hidx Hold Hu Ho.
  destruct (editedPrice_cases (editItemData st) Hu Ho) as (Hzero & Hfloor & Hkeep).
  split; [|split; [|split]].
  - destruct (saveEditItem_cart_cases st)
      as [->|[(i' & old' & _ & _ & _ & ->)|(i' & new & Hi' & Hnone & _)]];
      [reflexivity| |].
    + cbn [fst cart set_cart_closeEdit]. apply length_insert.
    + rewrite Hidx in Hi'. injection Hi' as <-. congruence.
  - intros j Hj.
    destruct (saveEditItem_cart_cases st)
      as [->|[(i' & old' & Hi' & _ & _ & ->)|(i' & new & Hi' & Hnone & _)]];
      [reflexivity| |].
    + cbn [fst cart set_cart_closeEdit].
      rewrite Hidx in Hi'. injection Hi' as <-.
      apply list_lookup_insert_ne. congruence.
    + rewrite Hidx in Hi'. injection Hi' as <-. congruence.
  - intros Hq. unfold saveEditItem. rewrite Hidx.
    rewrite (proj2 (truthy_true _) Hq).
    destruct (editedPrice (editItemData st)) as [fp notices] eqn:Eprice.
    rewrite Hold, (storeRow_in_range _ _ _ _ Hold).
    cbn [fst cart set_cart_closeEdit].
    eexists. split.
    { apply list_lookup_insert_eq. eapply lookup_lt_Some. exact Hold. }
    cbn [productId originalPrice unitPrice mergeItem].
    split; [reflexivity|]. split; [reflexivity|].
    destruct (Qeq_dec (unitPrice (editItemData st)) 0) as [Hz|Hnz].
    + destruct (Hzero Hz) as (fp' & Heq & Hfp).
      injection Heq as -> _. lra.
    + destruct (Qlt_le_dec (unitPrice (editItemData st))
                           ((94 # 100) * originalPrice (editItemData st)))
        as [Hlt|Hge].
      * destruct (Hfloor Hnz Hlt) as (fp' & Heq & Hfp).
        injection Heq as -> _. lra.
      * pose proof (Hkeep Hnz Hge) as Heq.
        injection Heq as -> _. exact Hge.
  - intros Hq. unfold saveEditItem. rewrite Hidx.
    rewrite (proj2 (truthy_false _) Hq). reflexivity.
Qed.

Lemma saveEditItem_only_that_row_witness :
  exists new : SaleItem,
    cart (fst (saveEditItem (editPos 3 5))) !! 0%nat = Some new
    /\ productId new = "p1"%string
    /\ originalPrice new = 10
    /\ (94 # 100) * originalPrice new <= unitPrice new.
Proof.
  apply (saveEditItem_only_that_row (editPos 3 5) 0%nat twoWidgets eq_refl eq_refl);
    discriminate.
Defined.

(** X15.  Opening the edit window on a row and confirming it untouched
    raises no notice and leaves the row as it was, when the row has a
    non-zero quantity, a non-zero unit price that is not below 0.94 times
    its original price, and a total of quantity times unit price. *)
Theorem openEditModal_then_save_unchanged (st : Pos) (i : nat) (item : SaleItem) :
  cart st !! i = Some item ->
  ~ quantity item == 0 ->
  ~ unitPrice item == 0 ->
  0 <= unitPrice item ->
  0 <= originalPrice item ->
  (94 # 100) * originalPrice item <= unitPrice item ->
  line_ok item ->
  snd (saveEditItem (openEditModal i st)) = []
  /\ exists new : SaleItem,
       cart (fst (saveEditItem (openEditModal i st))) = <[i := new]> (cart st)
       /\ total new == total item
       /\ mkSaleItem (internalId new) (productId new) (productCode new)
                     (productName new) (quantity new) (unitPrice new)
                     (originalPrice new) (total item) (item_unit new)
                     (observation new) = item.
Proof.
  intros Hitem Hq Hnz Hu Ho Hge Hline.
  destruct (editedPrice_cases item Hu Ho) as (_ & _ & Hkeep).
  pose proof (Hkeep Hnz Hge) as Hprice.
  unfold openEditModal. rewrite Hitem.
  unfold saveEditItem. cbn [editItemIndex editItemData cart set_edit].
  rewrite (proj2 (truthy_true _) Hq), Hprice, Hitem.
  rewrite (storeRow_in_range _ _ _ _ Hitem).
  cbn [fst snd cart set_cart_closeEdit]. split; [reflexivity|].
  eexists. split; [reflexivity|]. split.
  - cbn [total mergeItem]. rewrite !num_or_zero_r. unfold line_ok in Hline.
    rewrite Hline. reflexivity.
  - destruct item as [iid pid pcode pname q up op tot un ob]. simpl.
    f_equal; [destruct iid|destruct pcode|destruct un|destruct ob]; reflexivity.
Qed.

Lemma openEditModal_then_save_unchanged_witness :
  snd (saveEditItem (openEditModal 0
                       (samplePos false [twoWidgets; threeGadgets] 0 noPayments))) = []
  /\ exists new : SaleItem,
       cart (fst (saveEditItem (openEditModal 0
               (samplePos false [twoWidgets; threeGadgets] 0 noPayments))))
       = <[0%nat := new]> [twoWidgets; threeGadgets]
       /\ total new == total twoWidgets
       /\ mkSaleItem (internalId new) (productId new) (productCode new)
                     (productName new) (quantity new) (unitPrice new)
                     (originalPrice new) (total twoWidgets) (item_unit new)
                     (observation new) = twoWidgets.
Proof.
  apply (openEditModal_then_save_unchanged
           (samplePos false [twoWidgets; threeGadgets] 0 noPayments) 0%nat twoWidgets);
    try discriminate; reflexivity.
Defined.

(** ** Submitting *)

Lemma updateSale_products (saleId : string) (p : SalePatch) (db : Store) :
  products (snd (updateSale saleId p db)) = products db.
Proof.
  unfold updateSale, updateSaleRow. destruct (sales db !! saleId); reflexivity.
Qed.

Lemma updateSale_other (saleId other : string) (p : SalePatch) (db : Store) :
  other <> saleId ->
  sales (snd (updateSale saleId p db)) !! other = sales db !! other.
Proof.
  intros Hne. unfold updateSale, updateSaleRow.
  destruct (sales db !! saleId); [|reflexivity].
  simpl. apply lookup_insert_ne. congruence.
Qed.

Lemma createSale_products (serverId now : string) (p : SalePatch) (db : Store) :
  products (snd (createSale serverId now p db)) = products db.
Proof. unfold createSale. destruct (sales db !! serverId); reflexivity. Qed.

Lemma createSale_other (serverId other now : string) (p : SalePatch) (db : Store) :
  other <> serverId ->
  sales (snd (createSale serverId now p db)) !! other = sales db !! other.
Proof.
  intros Hne. unfold createSale. destruct (sales db !! serverId); [reflexivity|].
  simpl. apply lookup_insert_ne. congruence.
Qed.

(** X5.  A submit, budget or not, accepted or refused, never writes a
    product: the stock is only touched at completion.  It writes no sale
    but the one being edited or, for a new sale, the one the table adds. *)
Theorem handleSubmitSale_leaves_stock
    (asBudget : bool) (serverId now : string) (st : Pos) (db : Store) :
  products (snd (fst (handleSubmitSale asBudget serverId now st db))) = products db
  /\ (forall other : string,
        other <> serverId -> editingId st <> Some other ->
        sales (snd (fst (handleSubmitSale asBudget serverId now st db))) !! other
        = sales db !! other).
Proof.
  unfold handleSubmitSale.
  destruct (length (cart st) =? 0)%nat; [split; reflexivity|].
  destruct (negb (nonEmpty (selectedSellerId st))); [split; reflexivity|].
  destruct (if asBudget then None else submitPaymentCheck st); [split; reflexivity|].
  destruct (sessionUser st) as [u|]; [|split; reflexivity].
  destruct (editingId st) as [i|].
  - pose proof (updateSale_products i (salePayload asBudget u st) db) as Hp.
    pose proof (fun other H => updateSale_other i other (salePayload asBudget u st) db H)
      as Ho.
    destruct (updateSale i (salePayload asBudget u st) db) as [[e|s] db']; simpl in *;
      (split; [exact Hp|intros other _ Hne; apply Ho; congruence]).
  - pose proof (createSale_products serverId now (salePayload asBudget u st) db) as Hp.
    pose proof (fun other H =>
                  createSale_other serverId other now (salePayload asBudget u st) db H)
      as Ho.
    destruct (createSale serverId now (salePayload asBudget u st) db) as [[e|s] db'];
      simpl in *; (split; [exact Hp|intros other Hne _; apply Ho; exact Hne]).
Qed.

Lemma handleSubmitSale_leaves_stock_witness :
  products (snd (fst (handleSubmitSale false "s2" "2024-01-02"
                        (newSalePos cashTwenty) discountedStore)))
  = products discountedStore.
Proof.
  apply (handleSubmitSale_leaves_stock false "s2" "2024-01-02"
           (newSalePos cashTwenty) discountedStore).
Defined.

(** X6.  A budget is saved without any look at the payments: with a cart
    that is not empty, a salesperson chosen and a session user, a new
    budget is stored under the identity the table assigns, with the cart
    as items, the grand total as total value, the discount, freight, other
    costs and payments of the view, the session user as seller and status
    Budget; the view is then reset. *)
Theorem handleSubmitSale_budget_saved
    (serverId now : string) (st : Pos) (db : Store) (u : User) :
  cart st <> [] ->
  selectedSellerId st <> EmptyString ->
  sessionUser st = Some u ->
  editingId st = None ->
  sales db !! serverId = None ->
  exists row : Sale,
    handleSubmitSale true serverId now st db
    = (resetSalesState st,
       mkStore (products db) (<[serverId := row]> (sales db)),
       [toast_success BudgetSaved])
    /\ status row = BUDGET /\ items row = cart st
    /\ totalValue row = totalGeneral st /\ discount row = posDiscount st
    /\ freight row = posFreight st /\ otherCosts row = posOther st
    /\ sale_payments row = Some (payments st)
    /\ sellerId row = user_id u /\ finishedAt row = None.
Proof.
  intros Hcart Hseller Huser Hedit Hfresh. unfold handleSubmitSale.
  destruct (cart st) as [|item rest] eqn:Ecart; [contradiction|].
  simpl length. simpl Nat.eqb. cbv iota.
  assert (nonEmpty (selectedSellerId st) = true) as ->.
  { unfold nonEmpty. apply negb_true_iff. apply String.eqb_neq. exact Hseller. }
  simpl negb. cbv iota. rewrite Huser, Hedit.
  unfold createSale. rewrite Hfresh.
  eexists. split; [reflexivity|]. simpl. rewrite Ecart. repeat split.
Qed.

Lemma handleSubmitSale_budget_saved_witness :
  exists row : Sale,
    handleSubmitSale true "s2" "2024-01-02" (newSalePos noPayments)
                     (sampleStore (sampleSale BUDGET [] 0 0))
    = (resetSalesState (newSalePos noPayments),
       mkStore (products (sampleStore (sampleSale BUDGET [] 0 0)))
               (<["s2" := row]> (sales (sampleStore (sampleSale BUDGET [] 0 0)))),
       [toast_success BudgetSaved])
    /\ status row = BUDGET /\ items row = cart (newSalePos noPayments)
    /\ totalValue row = totalGeneral (newSalePos noPayments)
    /\ discount row = posDiscount (newSalePos noPayments)
    /\ freight row = posFreight (newSalePos noPayments)
    /\ otherCosts row = posOther (newSalePos noPayments)
    /\ sale_payments row = Some (payments (newSalePos noPayments))
    /\ sellerId row = user_id cashierUser /\ finishedAt row = None.
Proof.
  apply (handleSubmitSale_budget_saved "s2" "2024-01-02" (newSalePos noPayments)
           (sampleStore (sampleSale BUDGET [] 0 0)) cashierUser);
    try discriminate; reflexivity.
Defined.

(** ** Opening a stored sale and saving it again *)

Lemma hydrate_Forall2 (catalog : list Product) (l : list SaleItem) :
  forall ids : nat -> string,
    Forall2 (fun old new : SaleItem =>
               productId new = productId old /\ quantity new = quantity old
               /\ unitPrice new = unitPrice old
               /\ originalPrice new = originalPrice old
               /\ total new = total old)
            l (imap (fun i item => hydrateItem catalog (ids i) item) l).
Proof.
  induction l as [|item rest IH]; intros ids; [constructor|].
  simpl. constructor; [repeat split|].
  exact (IH (fun i => ids (S i))).
Qed.

Lemma hydrate_subTotal (catalog : list Product) (l : list SaleItem) :
  forall (ids : nat -> string) (acc : Q),
    fold_left (fun a item => a + total item)
              (imap (fun i item => hydrateItem catalog (ids i) item) l) acc
    = fold_left (fun a item => a + total item) l acc.
Proof.
  induction l as [|item rest IH]; intros ids acc; [reflexivity|].
  simpl. exact (IH (fun i => ids (S i)) _).
Qed.

(** X16.  A stored sale that is opened with [handleEditSale] and saved
    again as a budget, nothing touched in between, keeps the product,
    quantity, prices and total of every item, its discount, freight and
    other costs, its seller and its creation time; its total value is
    computed anew as [max 0 (subtotal - discount + freight + other costs)]
    and its status becomes Budget.  No product is written. *)
Theorem handleEditSale_then_save
    (catalog : list Product) (ids : nat -> string) (serverId now sp : string)
    (sale : Sale) (st : Pos) (db : Store) (u : User) :
  sales db !! sale_id sale = Some sale ->
  sale_id sale <> EmptyString ->
  items sale <> [] ->
  salespersonId sale = Some sp ->
  sp <> EmptyString ->
  sessionUser st = Some u ->
  exists row : Sale,
    handleSubmitSale true serverId now (handleEditSale catalog ids sale st) db
    = (resetSalesState (handleEditSale catalog ids sale st),
       mkStore (products db) (<[sale_id sale := row]> (sales db)),
       [toast_success BudgetUpdated])
    /\ status row = BUDGET
    /\ Forall2 (fun old new : SaleItem =>
                  productId new = productId old /\ quantity new = quantity old
                  /\ unitPrice new = unitPrice old
                  /\ originalPrice new = originalPrice old
                  /\ total new = total old)
               (items sale) (items row)
    /\ discount row == discount sale
    /\ freight row == freight sale
    /\ otherCosts row == otherCosts sale
    /\ totalValue row
       == Qmax 0 (itemsSubTotal (items sale) - discount sale + freight sale
                  + otherCosts sale)
    /\ sellerId row = sellerId sale
    /\ createdAt row = createdAt sale
    /\ salespersonId row = Some sp.
Proof.
  intros Hsale Hid Hitems Hsp Hspne Huser.
  unfold handleSubmitSale.
  assert (Hcart : cart (handleEditSale catalog ids sale st)
                  = imap (fun i item => hydrateItem catalog (ids i) item) (items sale))
    by reflexivity.
  assert (Hlen : (length (cart (handleEditSale catalog ids sale st)) =? 0)%nat = false).
  { rewrite Hcart, length_imap. destruct (items sale); [contradiction|reflexivity]. }
  rewrite Hlen.
  assert (Hsel : selectedSellerId (handleEditSale catalog ids sale st) = sp).
  { unfold handleEditSale, loadSale. cbn [selectedSellerId]. rewrite Hsp. reflexivity. }
  rewrite Hsel.
  assert (nonEmpty sp = true) as ->.
  { unfold nonEmpty. apply negb_true_iff. apply String.eqb_neq. exact Hspne. }
  simpl negb. cbv iota.
  change (sessionUser (handleEditSale catalog ids sale st)) with (sessionUser st).
  rewrite Huser.
  assert (Hedit : editingId (handleEditSale catalog ids sale st) = Some (sale_id sale)).
  { unfold editingId, handleEditSale, loadSale. cbn [editingSaleId].
    assert (nonEmpty (sale_id sale) = true) as ->; [|reflexivity].
    unfold nonEmpty. apply negb_true_iff. apply String.eqb_neq. exact Hid. }
  rewrite Hedit. unfold updateSale, updateSaleRow. rewrite Hsale.
  eexists. split; [reflexivity|].
  cbn [status items discount freight otherCosts totalValue sellerId createdAt
       salespersonId patchRow salePayload pt_items pt_status pt_discount pt_freight
       pt_otherCosts pt_totalValue pt_salespersonId default orElse].
  split; [reflexivity|]. split.
  { rewrite Hcart. apply hydrate_Forall2. }
  split; [apply num_or_zero_r|]. split; [apply num_or_zero_r|].
  split; [apply num_or_zero_r|]. split.
  { unfold totalGeneral, subTotal. rewrite Hcart, hydrate_subTotal.
    unfold handleEditSale, loadSale. cbn [posDiscount posFreight posOther].
    apply Q.max_compat; [reflexivity|].
    unfold itemsSubTotal. rewrite !num_or_zero_r. reflexivity. }
  split; [reflexivity|]. split; [reflexivity|].
  rewrite Hsel. reflexivity.
Qed.

Lemma handleEditSale_then_save_witness :
  exists row : Sale,
    handleSubmitSale true "s2" "2024-01-02"
      (handleEditSale [widget; gadget] (fun _ => "r"%string)
         (sampleSale PENDING [twoWidgets] 18 2) (newSalePos noPayments))
      discountedStore
    = (resetSalesState
         (handleEditSale [widget; gadget] (fun _ => "r"%string)
            (sampleSale PENDING [twoWidgets] 18 2) (newSalePos noPayments)),
       mkStore (products discountedStore) (<["s1" := row]> (sales discountedStore)),
       [toast_success BudgetUpdated])
    /\ status row = BUDGET
    /\ Forall2 (fun old new : SaleItem =>
                  productId new = productId old /\ quantity new = quantity old
                  /\ unitPrice new = unitPrice old
                  /\ originalPrice new = originalPrice old
                  /\ total new = total old)
               [twoWidgets] (items row)
    /\ discount row == 2
    /\ freight row == 0
    /\ otherCosts row == 0
    /\ totalValue row == Qmax 0 (itemsSubTotal [twoWidgets] - 2 + 0 + 0)
    /\ sellerId row = "u1"%string
    /\ createdAt row = "2024-01-01"%string
    /\ salespersonId row = Some "v1"%string.
Proof.
  apply (handleEditSale_then_save [widget; gadget] (fun _ => "r"%string)
           "s2" "2024-01-02" "v1" (sampleSale PENDING [twoWidgets] 18 2)
           (newSalePos noPayments) discountedStore cashierUser);
    try discriminate; reflexivity.
Defined.

(** * Further properties of the money helpers *)

(** The whole cents [formatMoney] prints. *)
Lemma parseMoney_formatMoney_cents (x : Q) :
  parseMoney (formatMoney x)
  = inject_Z (Z.of_N (Z.to_N (Qfloor (Qabs x * 100 + (1 # 2))))) / 100.
Proof.
  unfold parseMoney, formatMoney.
  set (cents := Z.to_N (Qfloor (Qabs x * 100 + (1 # 2)))).
  destruct (parseInt_formatted cents) as [Hne Hint]. cbv zeta in Hne, Hint.
  assert (Hd : digitsOnly ((if Qltb x 0 then "-" else EmptyString)
                           +:+ group (decimal (cents / 100)) +:+ ","
                           +:+ twoDigits (cents mod 100))
               = digitsOnly (group (decimal (cents / 100)) +:+ ","
                             +:+ twoDigits (cents mod 100))).
  { destruct (Qltb x 0); [|rewrite append_nil; reflexivity].
    rewrite append_cons, append_nil. reflexivity. }
  rewrite Hd, Hne, Hint. reflexivity.
Qed.

(** X17.  What comes back from [parseMoney] after [formatMoney] is the
    amount without its sign, rounded to the cent: it is never negative, it
    is within half a cent of the absolute value, and an amount and its
    opposite come back as the same value. *)
Theorem parseMoney_formatMoney_abs (x : Q) :
  0 <= parseMoney (formatMoney x)
  /\ Qabs x - (1 # 200) < parseMoney (formatMoney x)
  /\ parseMoney (formatMoney x) <= Qabs x + (1 # 200)
  /\ parseMoney (formatMoney (- x)) == parseMoney (formatMoney x).
Proof.
  rewrite !parseMoney_formatMoney_cents.
  set (y := Qabs x * 100 + (1 # 2)).
  assert (Hy : 0 <= y) by (unfold y; pose proof (Qabs_nonneg x); lra).
  assert (Hf0 : (0 <= Qfloor y)%Z).
  { change 0%Z with (Qfloor 0). apply Qfloor_resp_le. exact Hy. }
  rewrite Z2N.id by exact Hf0.
  pose proof (Qfloor_le y) as Hlo. pose proof (Qlt_floor y) as Hhi.
  rewrite inject_Z_plus in Hhi. change (inject_Z 1) with 1 in Hhi.
  assert (H0 : 0 <= inject_Z (Qfloor y)).
  { change 0 with (inject_Z 0). rewrite <- Zle_Qle. exact Hf0. }
  assert (Hyeq : y == Qabs x * 100 + (1 # 2)) by reflexivity.
  split; [|split; [|split]].
  - apply Qle_shift_div_l; [reflexivity|lra].
  - apply Qlt_shift_div_l; [reflexivity|]. lra.
  - apply Qle_shift_div_r; [reflexivity|]. lra.
  - assert (Hopp : Qabs (- x) * 100 + (1 # 2) == y)
      by (unfold y; rewrite Qabs_opp; reflexivity).
    rewrite (Qfloor_comp _ _ Hopp). rewrite Z2N.id by exact Hf0. reflexivity.
Qed.

(** X18.  The money fields show [formatMoney] of their value and read
    what is typed with [parseMoney]: a digit typed after the text of a
    whole number of cents [x] gives ten times [x] plus that digit as
    cents. *)
Theorem parseMoney_digit_typed (x : Q) (n d : N) :
  x == inject_Z (Z.of_N n) / 100 ->
  (d < 10)%N ->
  parseMoney (formatMoney x +:+ String (digitChar d) EmptyString)
  == 10 * x + inject_Z (Z.of_N d) / 100.
Proof.
  intros Hx Hd. destruct (cents_of_exact x n Hx) as [Hsign Hcents].
  unfold parseMoney, formatMoney. rewrite Hsign, Hcents, append_nil.
  destruct (parseInt_formatted n) as [Hne Hint]. cbv zeta in Hne, Hint.
  rewrite digitsOnly_app. cbn [digitsOnly].
  rewrite (proj2 (digit_inv d Hd)).
  set (digits := digitsOnly (group (decimal (n / 100)) +:+ ","
                             +:+ twoDigits (n mod 100))) in *.
  assert (nonEmpty (digits +:+ String (digitChar d) EmptyString) = true) as ->.
  { destruct digits; reflexivity. }
  unfold parseInt in *. rewrite parseDigits_app, Hint. cbn [parseDigits].
  rewrite (proj1 (digit_inv d Hd)), Hx.
  rewrite N2Z.inj_add, N2Z.inj_mul, inject_Z_plus, inject_Z_mult.
  change (inject_Z (Z.of_N 10)) with 10. field.
Qed.

Lemma parseMoney_digit_typed_witness :
  parseMoney (formatMoney (125 # 100) +:+ String (digitChar 7) EmptyString)
  == 10 * (125 # 100) + inject_Z (Z.of_N 7) / 100.
Proof.
  apply (parseMoney_digit_typed (125 # 100) 125%N 7%N); reflexivity.
Defined.

(** * Units, catalog and dashboard *)

(** ** Units of measure *)




(** ** The product catalog *)

Lemma store_eta (st : Store) : mkStore (products st) (sales st) = st.
Proof. destruct st; reflexivity. Qed.

Lemma set_active_twice (p : Product) :
  set_active (negb (active (set_active (negb (active p)) p)))
             (set_active (negb (active p)) p) = p.
Proof. destruct p as [i c n d pr s ca u a]. simpl. rewrite negb_involutive. reflexivity. Qed.

(** X20.  [toggleProductActive] on a product that is not stored fails and
    writes nothing.  On a stored product it flips the active flag and
    nothing else: the stock, price and the other columns, the other
    products and the sales are as before, and a second call brings the
    store back to what it was. *)
Theorem toggleProductActive_flips_flag (pid : string) (st : Store) :
  (products st !! pid = None ->
   toggleProductActive pid st = (inl CatalogNotFound, st))
  /\ (forall p : Product,
        products st !! pid = Some p ->
        fst (toggleProductActive pid st)
        = inr (mapProduct (set_active (negb (active p)) p))
        /\ products (snd (toggleProductActive pid st)) !! pid
           = Some (set_active (negb (active p)) p)
        /\ (forall other : string, other <> pid ->
              products (snd (toggleProductActive pid st)) !! other
              = products st !! other)
        /\ sales (snd (toggleProductActive pid st)) = sales st
        /\ snd (toggleProductActive pid (snd (toggleProductActive pid st))) = st).
Proof.
  unfold toggleProductActive. split.
  - intros Hnone. rewrite Hnone. reflexivity.
  - intros p Hp. rewrite Hp. cbn [fst snd products sales].
    split; [reflexivity|]. split; [apply lookup_insert_eq|].
    split; [intros other Hne; apply lookup_insert_ne; congruence|].
    split; [reflexivity|].
    rewrite lookup_insert_eq. cbn [snd]. rewrite set_active_twice.
    rewrite insert_insert_eq, (insert_id _ _ _ Hp). apply store_eta.
Qed.

Lemma toggleProductActive_flips_flag_witness :
  snd (toggleProductActive "p1"
         (snd (toggleProductActive "p1" discountedStore))) = discountedStore.
Proof.
  apply (proj2 (toggleProductActive_flips_flag "p1" discountedStore) widget).
  reflexivity.
Defined.

Lemma mapProduct_payload (rowId : string) (product : Product) :
  mapProduct (productPayload rowId product) = productPayload rowId product.
Proof.
  unfold mapProduct, productPayload. simpl.
  destruct (nonEmpty (prod_unit product)) eqn:E; [rewrite E; reflexivity|].
  reflexivity.
Qed.

Lemma productPayload_columns (rowId : string) (product : Product) :
  productPayload rowId product
  = mkProduct rowId (code product) (name product) (description product)
              (price product) (stock product) (category product)
              (if String.eqb (prod_unit product) EmptyString
               then "UNID"%string else prod_unit product)
              (active product).
Proof.
  unfold productPayload, nonEmpty.
  destruct (String.eqb (prod_unit product) EmptyString); reflexivity.
Qed.

(** X21.  [saveProduct] for a product with an identity that is stored
    replaces that row by the product's columns: code, name, description,
    price, stock, category and active flag as given, the unit as given or
    UNID when it is empty.  It returns the row as it is then stored, and
    saving what it returned again changes nothing.  With an identity that
    is not stored it fails and writes nothing; without an identity it adds
    the same columns under the identity the table assigns.  It never writes
    another product or a sale. *)
Theorem saveProduct_round_trip (serverId : string) (product : Product) (st : Store) :
  let columns (rowId : string) :=
    mkProduct rowId (code product) (name product) (description product)
              (price product) (stock product) (category product)
              (if String.eqb (prod_unit product) EmptyString
               then "UNID"%string else prod_unit product)
              (active product) in
  (prod_id product <> EmptyString ->
   (products st !! prod_id product = None ->
    saveProduct serverId product st = (inl CatalogRefused, st))
   /\ (forall old : Product,
         products st !! prod_id product = Some old ->
         saveProduct serverId product st
         = (inr (columns (prod_id product)),
            mkStore (<[prod_id product := columns (prod_id product)]> (products st))
                    (sales st))
         /\ products (snd (saveProduct serverId product st)) !! prod_id product
            = Some (columns (prod_id product))
         /\ saveProduct serverId (columns (prod_id product))
                        (snd (saveProduct serverId product st))
            = (inr (columns (prod_id product)),
               snd (saveProduct serverId product st))))
  /\ (prod_id product = EmptyString -> products st !! serverId = None ->
      saveProduct serverId product st
      = (inr (columns serverId),
         mkStore (<[serverId := columns serverId]> (products st)) (sales st))
      /\ products (snd (saveProduct serverId product st)) !! serverId
         = Some (columns serverId))
  /\ sales (snd (saveProduct serverId product st)) = sales st
  /\ (forall other : string,
        other <> prod_id product -> other <> serverId ->
        products (snd (saveProduct serverId product st)) !! other
        = products st !! other).
Proof.
  intros columns.
  assert (Hcol : forall rowId : string, productPayload rowId product = columns rowId)
    by (intros rowId; apply productPayload_columns).
  split; [|split; [|split]].
  - intros Hid.
    assert (Hne : nonEmpty (prod_id product) = true).
    { unfold nonEmpty. apply negb_true_iff. apply String.eqb_neq. exact Hid. }
    unfold saveProduct. rewrite Hne. split.
    + intros Hnone. rewrite Hnone. reflexivity.
    + intros old Hold. rewrite Hold. cbn [fst snd products].
      rewrite mapProduct_payload, Hcol.
      split; [reflexivity|]. split; [apply lookup_insert_eq|].
      change (prod_id (columns (prod_id product))) with (prod_id product).
      rewrite Hne, lookup_insert_eq.
      cbn [products sales]. rewrite insert_insert_eq.
      assert (Hrow : productPayload (prod_id product) (columns (prod_id product))
                     = columns (prod_id product)).
      { rewrite <- Hcol. unfold productPayload. simpl.
        destruct (nonEmpty (prod_unit product)) eqn:E; [rewrite E; reflexivity|].
        reflexivity. }
      rewrite Hrow. rewrite <- Hcol at 1. rewrite mapProduct_payload, Hcol.
      reflexivity.
  - intros Hid Hfresh. unfold saveProduct. rewrite Hid. cbn [nonEmpty String.eqb negb].
    rewrite Hfresh. cbn [fst snd products]. rewrite mapProduct_payload, Hcol.
    split; [reflexivity|]. apply lookup_insert_eq.
  - unfold saveProduct.
    destruct (nonEmpty (prod_id product));
      [destruct (products st !! prod_id product)
      |destruct (products st !! serverId)]; reflexivity.
  - intros other H1 H2. unfold saveProduct.
    destruct (nonEmpty (prod_id product));
      [destruct (products st !! prod_id product)
      |destruct (products st !! serverId)]; try reflexivity;
      cbn [snd products]; apply lookup_insert_ne; congruence.
Qed.

Lemma saveProduct_round_trip_witness :
  saveProduct "p9" widgetForm discountedStore
  = (inr (mkProduct "p1" "W-1" "Widget" EmptyString 12 8 EmptyString "UNID" true),
     mkStore (<["p1"%string :=
                  mkProduct "p1" "W-1" "Widget" EmptyString 12 8 EmptyString "UNID" true]>
                (products discountedStore))
             (sales discountedStore))
  /\ saveProduct "p9" (mkProduct EmptyString "N-1" "Nut" "M8" 1 40 "Hardware" "CX" true)
                 discountedStore
     = (inr (mkProduct "p9" "N-1" "Nut" "M8" 1 40 "Hardware" "CX" true),
        mkStore (<["p9"%string :=
                     mkProduct "p9" "N-1" "Nut" "M8" 1 40 "Hardware" "CX" true]>
                   (products discountedStore))
                (sales discountedStore)).
Proof.
  split.
  - apply (proj2 (proj1 (saveProduct_round_trip "p9" widgetForm discountedStore)
                    ltac:(discriminate)) widget).
    reflexivity.
  - apply (proj1 (proj2 (saveProduct_round_trip "p9"
                           (mkProduct EmptyString "N-1" "Nut" "M8" 1 40 "Hardware" "CX" true)
                           discountedStore)));
      reflexivity.
Defined.

(** ** The dashboard *)

Lemma countStatus_cons (s : SaleStatus) (x : Sale) (l : list Sale) :
  countStatus s (x :: l)
  = ((if status_eqb (status x) s then 1 else 0) + countStatus s l)%nat.
Proof.
  unfold countStatus. simpl. destruct (status_eqb (status x) s); reflexivity.
Qed.

Lemma totalRevenue_cons (x : Sale) (l : list Sale) :
  totalRevenue (x :: l)
  == (if status_eqb (status x) COMPLETED then totalValue x else 0) + totalRevenue l.
Proof.
  unfold totalRevenue. simpl.
  destruct (status_eqb (status x) COMPLETED).
  - apply (fold_sum_cons totalValue).
  - ring.
Qed.

(** X22.  On the dashboard every sale is counted once: the completed,
    pending and cancelled counts and the number of budgets add up to the
    number of sales.  The chart shows one value per completed sale, ten
    at most. *)
Theorem dashboard_counts (l : list Sale) :
  (completedCount l + pendingCount l + cancelledCount l + countStatus BUDGET l)%nat
  = length l
  /\ length (chartValues l) = Nat.min 10 (completedCount l).
Proof.
  split.
  - unfold completedCount, pendingCount, cancelledCount.
    induction l as [|x rest IH]; [reflexivity|].
    rewrite !countStatus_cons. simpl length.
    destruct (status x); simpl; lia.
  - unfold chartValues, lastTen, completedCount, countStatus.
    rewrite length_map, length_drop. lia.
Qed.

(** X23.  When a completed sale of the list becomes cancelled (what
    [cancelSale] stores), the revenue shown falls by that sale's total
    value, the completed count by one, the cancelled count rises by one
    and the pending count stays. *)
Theorem dashboard_after_cancel (l : list Sale) : forall (i : nat) (s : Sale),
  l !! i = Some s ->
  status s = COMPLETED ->
  totalRevenue (<[i := set_status CANCELLED s]> l) == totalRevenue l - totalValue s
  /\ S (completedCount (<[i := set_status CANCELLED s]> l)) = completedCount l
  /\ cancelledCount (<[i := set_status CANCELLED s]> l) = S (cancelledCount l)
  /\ pendingCount (<[i := set_status CANCELLED s]> l) = pendingCount l.
Proof.
  unfold completedCount, cancelledCount, pendingCount.
  induction l as [|x rest IH]; intros i s Hl Hst; [discriminate|].
  destruct i as [|i]; simpl in Hl.
  - injection Hl as ->. simpl insert.
    rewrite !totalRevenue_cons, !countStatus_cons. simpl status. rewrite Hst.
    simpl. repeat split; try reflexivity. ring.
  - destruct (IH i s Hl Hst) as (Hrev & Hc & Hx & Hp). simpl insert.
    rewrite !totalRevenue_cons, !countStatus_cons, Hrev, <- Hc, Hx, Hp.
    repeat split; try lia. ring.
Qed.

Lemma dashboard_after_cancel_witness :
  totalRevenue (<[0%nat := set_status CANCELLED completedSale]>
                  [completedSale; greedySale])
  == totalRevenue [completedSale; greedySale] - totalValue completedSale
  /\ S (completedCount (<[0%nat := set_status CANCELLED completedSale]>
                          [completedSale; greedySale]))
     = completedCount [completedSale; greedySale]
  /\ cancelledCount (<[0%nat := set_status CANCELLED completedSale]>
                       [completedSale; greedySale])
     = S (cancelledCount [completedSale; greedySale])
  /\ pendingCount (<[0%nat := set_status CANCELLED completedSale]>
                     [completedSale; greedySale])
     = pendingCount [completedSale; greedySale].
Proof.
  apply (dashboard_after_cancel [completedSale; greedySale] 0%nat completedSale);
    reflexivity.
Defined.
